(** * Galaxy client views: tool form, error modal, toolshed browsers

    A shallow embedding of the view modules [mvc/tool/tool-form],
    [mvc/ui/error-modal], [mvc/toolshed/workflows-view] and
    [mvc/toolshed/categories-view].  Every view method becomes a function
    that returns, next to its JavaScript result, the list of effects it
    performs on the page (requests, dialogs, highlights, debug lines) in
    program order. *)

From Stdlib Require Import ZArith List Ascii.
From stdpp Require Import base strings pretty list gmap sorting.

#[local] Set Warnings "-register-all".

Local Open Scope Z_scope.

(** ** JavaScript values *)

Module JS.

(** The values the views read.  A function is represented by the value a
    call with no argument on its owner returns, which is all that
    [_.result] asks of it. *)
Inductive jv : Type :=
| JUndef
| JNull
| JBool (b : bool)
| JNum (n : Z)
| JStr (s : string)
| JFun (ret : jv)
| JObj (props : list (string * jv)).

(** ToBoolean. *)
Definition truthy (v : jv) : bool :=
  match v with
  | JUndef | JNull => false
  | JBool b => b
  | JNum n => negb (Z.eqb n 0)
  | JStr s => negb (String.eqb s "")
  | JFun _ | JObj _ => true
  end.

(** [a && b] and [a || b]. *)
Definition js_and (a b : jv) : jv := if truthy a then b else a.
Definition js_or (a b : jv) : jv := if truthy a then a else b.

(** [v == null]. *)
Definition nullish (v : jv) : bool :=
  match v with JUndef | JNull => true | _ => false end.

Definition is_undef (v : jv) : bool :=
  match v with JUndef => true | _ => false end.

Definition is_function (v : jv) : bool :=
  match v with JFun _ => true | _ => false end.

(** Own enumerable properties, in [for .. in] order. *)
Definition props_of (v : jv) : list (string * jv) :=
  match v with JObj ps => ps | _ => [] end.

Fixpoint assoc (k : string) (ps : list (string * jv)) : option jv :=
  match ps with
  | [] => None
  | (k', v) :: ps' => if String.eqb k k' then Some v else assoc k ps'
  end.

(** [v[k]] for an object; a property that is absent reads [undefined]. *)
Definition get (v : jv) (k : string) : jv :=
  default JUndef (assoc k (props_of v)).

Section ToString.
(** The text of an object or of a function depends on its prototype
    chain, which the views never define: it is left to the engine. *)
Variable object_text : jv -> string.

(** ToString, as [+] applies it to a non-string operand. *)
Definition to_str (v : jv) : string :=
  match v with
  | JUndef => "undefined"
  | JNull => "null"
  | JBool true => "true"
  | JBool false => "false"
  | JNum n => pretty n
  | JStr s => s
  | JFun _ | JObj _ => object_text v
  end.
End ToString.

(** *** The underscore helpers of [error-modal] *)

(** [_.result(object, property, fallback)]. *)
Definition result (object : jv) (property : string) (fallback : jv) : jv :=
  let value := if nullish object then JUndef else get object property in
  let value := if is_undef value then fallback else value in
  match value with JFun ret => ret | _ => value end.

(** [_.functions(obj)]: the sorted names of the function-valued
    properties. *)
Definition functions (obj : jv) : list string :=
  merge_sort String.le
    (map fst (filter (fun kv => is_function (snd kv) = true) (props_of obj))).

(** [_.omit(obj, keys)]: a copy of [obj] without the listed keys; anything
    that is not an object gives the empty object. *)
Definition omit (obj : jv) (keys : list string) : jv :=
  JObj (filter (fun kv => fst kv ∉ keys) (props_of obj)).

End JS.
Import JS.

(** ** Requests and page effects *)

(** One selected dataset of a data parameter: [{id: .., src: ..}]. *)
Record selection := { sel_id : string; src : option string }.

(** The value of one entry of [inputs], as [form.data.create()] builds
    it: [null] (or [undefined]), a value without a [batch] property
    (text, number, flag, array), or the object of a data parameter with
    its [batch] flag and its [values] array. *)
Inductive value : Type :=
| VNull
| VScalar (text : string)
| VData (batch : bool) (values : list (option selection)).

(** The job request [{tool_id, tool_version, inputs}]; [inputs] lists
    the entries in [for .. in] order. *)
Record request := {
  tool_id : jv;
  tool_version : jv;
  inputs : list (string * value)
}.

(** The request [e] with the entries [t] for its [inputs]. *)
Definition with_inputs (e : request) (t : list (string * value)) : request :=
  {| tool_id := tool_id e; tool_version := tool_version e; inputs := t |}.

Inductive payload : Type :=
| Params (data : gmap string jv)
| Job (data : request).

(** What a dialog shows: a value as text, or the element built by
    [_templateError]: a paragraph and a [<pre>] holding
    [JSON.stringify(dump, null, 4)]. *)
Inductive content : Type :=
| Text (v : jv)
| ErrorTemplate (text : string) (dump : request).

Inductive effect : Type :=
| Ajax (type url : string) (data : payload)
| SubmitForm (action method enctype : jv) (fields : list (string * value))
| Trigger (event : string)
| FormWait (active : bool)
| Highlight (id : string) (message : option string)
| Debug (tag message : string)
| ModalShow (title : jv) (body : content) (closing_events : bool)
    (buttons : list string)
| ModalAddClass (cls : string)
| DetailsClear
| DetailsAppend (intro : jv) (dump : jv)
| DetailsButton (label : jv)
| Alert (text : string)
| ConsoleLog (label : string) (json : jv)
| PrependMessage (message : jv)
| Redirect (url : string)
| Resolve
| Reject
| Callback.

(** A request sent to the server, by XHR or by submitting a form. *)
Definition is_request (e : effect) : bool :=
  match e with
  | Ajax _ _ _ | SubmitForm _ _ _ _ => true
  | _ => false
  end.

Definition is_highlight (e : effect) : bool :=
  match e with Highlight _ _ => true | _ => false end.

(** What a canceled submission may do: reset the marks of the form,
    mark a field, write a debug line, call back. *)
Definition is_feedback (e : effect) : bool :=
  match e with
  | Trigger _ | Highlight _ _ | Debug _ _ | Callback => true
  | _ => false
  end.

Definition is_modal (e : effect) : bool :=
  match e with ModalShow _ _ _ _ => true | _ => false end.

Definition is_alert (e : effect) : bool :=
  match e with Alert _ => true | _ => false end.

(** ** The tool form: [mvc/tool/tool-form] *)

Module ToolForm.

(** The definition of one tool parameter, as far as the view reads it. *)
Record input := { optional : bool }.

(** The attributes of the tool model that the view reads. *)
Record attributes := {
  id : jv;
  version : jv;
  job_id : jv;
  action : jv;
  method : jv;
  enctype : jv
}.

Definition kinds_message : string :=
  "Please select either dataset or dataset list fields for all batch mode fields.".

Definition counts_message (d o : Z) : string :=
  "Please make sure that you select the same number of inputs for all batch mode fields. This field contains <b>"
  +:+ pretty d +:+ "</b> selection(s) while a previous field contains <b>"
  +:+ pretty o +:+ "</b>.".

(** [null == l]. *)
Definition value_nullish (l : value) : bool :=
  match l with VNull => true | _ => false end.

(** [u = d > 0 && l.values[0] && l.values[0].src], when it is truthy. *)
Definition source_kind (values : list (option selection)) : option string :=
  match values with
  | Some first :: _ =>
      match src first with
      | Some u => if String.eqb u "" then None else Some u
      | None => None
      end
  | _ => None
  end.

(** How one turn of the loop of [validate] ends: with the next values of
    [o] and [i], or with a [return]. *)
Inductive outcome : Type :=
| Next (o : Z) (i : option string)
| Return (b : bool).

Section View.
(** The text the engine gives to objects, [Galaxy.root], the field
    widgets of the form and jQuery's [$.param]. *)
Variable object_text : jv -> string.
Variable root : string.
Variable field : Type.
Variable jq_param : list (string * string) -> string.

(** [this.form], built by [mvc/tool/tool-form-base]: the lookup from the
    name of an entry to the id of its field, the fields and the parameter
    definitions by id, the current entries, and the lookup from the
    [err_data] of a response to the fields it names with their messages. *)
Record form := {
  data_match : string -> option string;
  field_list : gmap string field;
  input_list : gmap string input;
  data_create : list (string * value);
  data_matchResponse : jv -> list (string * string)
}.

(** [r && n && s], with [r], [n] and [s] when it holds. *)
Definition resolve (f : form) (a : string) : option (string * input * field) :=
  match data_match f a with
  | Some r =>
      if String.eqb r "" then None
      else match input_list f !! r, field_list f !! r with
           | Some n, Some s => Some (r, n, s)
           | _, _ => None
           end
  | None => None
  end.

(** The body of [if (l && l.batch)]. *)
Definition check_batch (r : string) (values : list (option selection))
    (o : Z) (i : option string) : outcome * list effect :=
  let d := Z.of_nat (length values) in
  let kinds :=
    match source_kind values with
    | Some u =>
        match i with
        | None => Some (Some u)
        | Some i0 => if String.eqb i0 u then Some i else None
        end
    | None => Some i
    end in
  match kinds with
  | None => (Return false, [Highlight r (Some kinds_message)])
  | Some i' =>
      if Z.eqb (-1) o then (Next d i', [])
      else if Z.eqb o d then (Next o i', [])
      else (Return false, [Highlight r (Some (counts_message d o))])
  end.

(** One turn of the loop, for the entry [a] with value [l]. *)
Definition check_input (f : form) (o : Z) (i : option string)
    (a : string) (l : value) : outcome * list effect :=
  match resolve f a with
  | Some (r, n, _) =>
      if negb (optional n) && value_nullish l
      then (Return false, [Highlight r None])
      else match l with
           | VData true values => check_batch r values o i
           | _ => (Next o i, [])
           end
  | None =>
      (Next o i,
       [Debug "tool-form::validate()" "Retrieving input objects failed."])
  end.

Fixpoint validate_loop (f : form) (t : list (string * value))
    (o : Z) (i : option string) : bool * list effect :=
  match t with
  | [] => (true, [])
  | (a, l) :: t' =>
      match check_input f o i a l with
      | (Return b, tr) => (b, tr)
      | (Next o' i', tr) =>
          let (b, tr') := validate_loop f t' o' i' in (b, tr ++ tr')
      end
  end.

Definition validate (f : form) (e : request) : bool * list effect :=
  validate_loop f (inputs e) (-1) None.

(** *** The words of the two batch rules

    The batch-mode fields of a list of entries are the entries that
    resolve to a field of the form and whose value has a truthy [batch];
    each is taken with its [values].  The rules compare every such field
    with the first one: its selection count, and the first source kind
    found. *)
Definition batch_values (f : form) (entry : string * value)
    : option (list (option selection)) :=
  match resolve f (fst entry), snd entry with
  | Some _, VData true values => Some values
  | _, _ => None
  end.

Definition batch_fields (f : form) (t : list (string * value))
    : list (list (option selection)) :=
  omap (batch_values f) t.

Definition first_count (f : form) (t : list (string * value)) : Z :=
  match batch_fields f t with
  | values :: _ => Z.of_nat (length values)
  | [] => -1
  end.

Definition first_kind (f : form) (t : list (string * value))
    : option string :=
  head (omap source_kind (batch_fields f t)).

(** The values of [o] and [i] once the entries [t] have passed, when the
    loop reached them with [o] and [i]. *)
Definition after_o (f : form) (t : list (string * value)) (o : Z) : Z :=
  if Z.eqb (-1) o then first_count f t else o.

Definition after_i (f : form) (t : list (string * value))
    (i : option string) : option string :=
  match i with Some _ => i | None => first_kind f t end.

(** [t && t()]. *)
Definition callback (t : bool) : list effect :=
  if t then [Callback] else [].

(** [e.action !== url]. *)
Definition differs_from (v : jv) (url : string) : bool :=
  match v with JStr s => negb (String.eqb s url) | _ => true end.

Definition job_request (f : form) (e : attributes) : request :=
  {| tool_id := id e; tool_version := version e; inputs := data_create f |}.

(** [submit(e, t)], up to the point where it returns; [t] says whether a
    completion callback was passed. *)
Definition submit (f : form) (e : attributes) (t : bool) : list effect :=
  let i := job_request f e in
  let (valid, tr) := validate f i in
  Trigger "reset" :: tr ++
  if negb valid then
    Debug "tool-form::submit()" "Submission canceled. Validation failed."
    :: callback t
  else if differs_from (action e) (root +:+ "tool_runner/index") then
    SubmitForm (action e) (method e) (enctype e) (inputs i) :: callback t
  else
    [Debug "tool-form::submit()" "Validation complete.";
     Ajax "POST" (root +:+ "api/tools") (Job i)].

Definition _templateError (e : request) (t : jv) : content :=
  ErrorTemplate
    ("The server could not complete the request. Please contact the Galaxy Team if this error persists. "
     +:+ to_str object_text (js_or t (JStr "")))
    e.

(** The [error] callback of the request of [submit], for the response
    [e]. *)
Definition submit_error (f : form) (i : request) (t : bool) (e : jv)
    : list effect :=
  let matched :=
    if truthy (js_and e (get e "err_data"))
    then data_matchResponse f (get e "err_data") else [] in
  callback t ++
  Debug "tool-form::submit" "Submission failed." ::
  match matched with
  | (r, message) :: _ => [Highlight r (Some message)]
  | [] =>
      [ModalShow (JStr "Job submission failed")
         (_templateError i (js_and e (get e "err_msg"))) false ["Close"]]
  end.

(** [$.extend({}, Galaxy.params)]: the properties whose value is not
    [undefined]. *)
Definition extend (params : gmap string jv) : gmap string jv :=
  filter (fun kv => is_undef (snd kv) = false) params.

(** The url and the query data of the request of [buildmodel]. *)
Definition build_request (params : gmap string jv) (i : attributes)
    : string * gmap string jv :=
  let r := job_id i in
  let '(a, l) :=
    if truthy r
    then (root +:+ "api/jobs/" +:+ to_str object_text r +:+ "/build_for_rerun",
          (∅ : gmap string jv))
    else (root +:+ "api/tools/" +:+ to_str object_text (id i) +:+ "/build",
          let l := extend params in
          if truthy (default JUndef (l !! "tool_id"))
          then delete "tool_id" l else l) in
  (a, if truthy (version i) then <["tool_version" := version i]> l else l).

Definition buildmodel (params : gmap string jv) (i : attributes)
    : list effect :=
  let (a, l) := build_request params i in [Ajax "GET" a (Params l)].

(** The [error] callback of [buildmodel], for the response [t] with
    status [a]; [empty] is [o.$el.is(":empty")] and [modal] says whether
    [Galaxy.modal] is there. *)
Definition buildmodel_error (empty modal : bool) (i : attributes)
    (t : jv) (a : Z) : list effect :=
  let l := js_or (js_and t (get t "err_msg")) (JStr "Uncaught error.") in
  (if Z.eqb 401 a then
     [Redirect (root +:+ "user/login?" +:+
                jq_param [("redirect",
                           root +:+ "?tool_id=" +:+ to_str object_text (id i))])]
   else if empty then [PrependMessage l]
   else if modal then
     [ModalShow (JStr "Tool request failed") (Text l) false ["Close"]]
   else [])
  ++ [Debug "tool-form-base::_buildModel()"
        "Initial tool model request failed.";
      Reject].

Definition postchange (f : form) (i : attributes) : list effect :=
  [FormWait true;
   Debug "tool-form::postchange()" "Sending current state.";
   Ajax "POST" (root +:+ "api/tools/" +:+ to_str object_text (id i) +:+ "/build")
     (Job (job_request f i))].

Definition postchange_error (t : jv) : list effect :=
  [Debug "tool-form::postchange()" "Refresh request failed."; Reject].

End View.

Arguments data_match {field}.
Arguments field_list {field}.
Arguments input_list {field}.
Arguments data_create {field}.
Arguments data_matchResponse {field}.
Arguments resolve {field}.
Arguments check_input {field}.
Arguments validate_loop {field}.
Arguments validate {field}.
Arguments batch_values {field}.
Arguments batch_fields {field}.
Arguments first_count {field}.
Arguments first_kind {field}.
Arguments after_o {field}.
Arguments after_i {field}.
Arguments job_request {field}.
Arguments submit root {field}.
Arguments submit_error object_text {field}.
Arguments postchange object_text root {field}.

End ToolForm.

(** ** The error dialog: [mvc/ui/error-modal] *)

Module ErrorModal.

(** The global [Galaxy]: whether it has a [modal], and the objects the
    diagnostic details are read from. *)
Record galaxy := {
  modal : bool;
  config : jv;
  lastAjax : jv;
  user : jv
}.

(** The page: [window.Galaxy] when it is defined, [window.Raven], and
    the two properties read from [navigator]. *)
Record window := {
  Galaxy : option galaxy;
  Raven : jv;
  userAgent : string;
  onLine : bool
}.

(** What [errorModal] returns: [undefined], or [Galaxy.modal]. *)
Inductive returned : Type :=
| Undefined
| TheModal.

(** [window.Galaxy && Galaxy.modal]. *)
Definition modal_host (w : window) : bool :=
  match Galaxy w with Some g => modal g | None => false end.

Definition two_newlines : string :=
  String (Ascii.ascii_of_nat 10) (String (Ascii.ascii_of_nat 10) "").

Section Module_.
(** The text the engine gives to objects, and the default export of
    [utils/localization]. *)
Variable object_text : jv -> string.
Variable localize : jv -> jv.

(** The three messages localized when the module loads ([n], [i] and [d]
    in the source). *)
Definition CONTACT_MSG : jv :=
  localize (JStr "Please contact a Galaxy administrator if the problem persists.").
Definition DEFAULT_AJAX_ERR_MSG : jv :=
  localize (JStr "An error occurred while updating information with the server.").
Definition DETAILS_MSG : jv :=
  localize (JStr "The following information can assist the developers in finding the source of the error:").

(** [a + b] where one operand is text. *)
Definition concat (a b : jv) : jv :=
  JStr (to_str object_text a +:+ to_str object_text b).

(** The function [t] of the source: show the dialog, and under it the
    details when there are any. *)
Definition _errorModal (message title details : jv)
    : returned * list effect :=
  (TheModal,
   [ModalShow title (Text message) true ["Ok"];
    ModalAddClass "error-modal"]
   ++ (if truthy details then
         [DetailsClear;
          DetailsAppend DETAILS_MSG details;
          DetailsButton (localize (JStr "Details"))]
       else [])).

(** The function [o] of the source. *)
Definition errorModal (w : window) (message title details : jv)
    : returned * list effect :=
  if truthy message then
    let message := localize message in
    let title := js_or (localize title) (localize (JStr "Error:")) in
    if modal_host w then _errorModal message title details
    else (Undefined,
          [Alert (to_str object_text title +:+ two_newlines
                  +:+ to_str object_text message);
           ConsoleLog "error details:" details])
  else (Undefined, []).

(** The function [r] of the source: the diagnostic details of a failed
    request, for the model [a], the xhr [e] and the options [t]. *)
Definition _ajaxDetails (g : galaxy) (w : window) (a e t : jv) : jv :=
  JObj [("raven", result (Raven w) "lastEventId" JUndef);
        ("userAgent", JStr (userAgent w));
        ("onLine", JBool (onLine w));
        ("version", result (config g) "version_major" JUndef);
        ("xhr", omit e (functions e));
        ("options", omit t ["xhr"]);
        ("url", result (lastAjax g) "url" JUndef);
        ("data", result (lastAjax g) "data" JUndef);
        ("model", result a "toJSON" (concat a (JStr "")));
        ("user", omit (result (user g) "toJSON" JUndef) ["email"])].

Definition offlineErrorModal (w : window) : returned * list effect :=
  errorModal w
    (localize (JStr "You appear to be offline. Please check your connection and try again."))
    (localize (JStr "Offline?")) JUndef.

Definition badGatewayErrorModal (w : window) : returned * list effect :=
  errorModal w
    (concat
       (concat
          (localize (JStr "Galaxy is currently unreachable. Please try again in a few minutes."))
          (JStr " "))
       CONTACT_MSG)
    (localize (JStr "Cannot connect to Galaxy")) JUndef.

(** [ajaxErrorModal(a, e, t, d, u)].  Reading [Galaxy.config] raises when
    there is no [Galaxy], before anything is shown: the result is [None]
    then. *)
Definition ajaxErrorModal (w : window) (a e t d u : jv)
    : option (returned * list effect) :=
  match Galaxy w with
  | None => None
  | Some g =>
      let d := js_or d DEFAULT_AJAX_ERR_MSG in
      let d := concat d (concat (JStr " ") CONTACT_MSG) in
      let u := js_or u (localize (JStr "An error occurred")) in
      Some (errorModal w d u (_ajaxDetails g w a e t))
  end.

End Module_.

End ErrorModal.

(** ** The toolshed browsers: [mvc/toolshed/workflows-view] and
    [mvc/toolshed/categories-view] *)

Module Toolshed.

(** The requests of the two views: the [fetch] of each model, the two
    [$.get] of the workflow buttons (the second one nested in two steps)
    and the [$.post] of the search box. *)
Inductive call : Type :=
| WorkflowsFetch
| ShowRepository
| QueueRepository
| QueueRepositoryMetadata
| CategoriesFetch
| Search.

Section Views.
Variable root : string.

Definition repository_url : string := root +:+ "api/tool_shed/repository".

(** The click handler of [.show_wf_repo], for the button's
    [data-toolids]. *)
Definition show_wf_repo (toolids : jv) : list effect :=
  [Ajax "GET" repository_url (Params {["tool_ids" := toolids]})].

(** The click handler of [.queue_wf_repo], and the request its success
    callback sends for the repository id of the response. *)
Definition queue_wf_repo (toolids : jv) : list effect :=
  [Ajax "GET" repository_url (Params {["tool_ids" := toolids]})].

Definition queue_wf_repo_success (shed repository_id : jv) : list effect :=
  [Ajax "GET" repository_url
     (Params (<["repository_id" := repository_id]>
                {["tool_shed_url" := shed]}))].

(** The [source] of the autocomplete box. *)
Definition search (term shed : jv) : list effect :=
  [Ajax "POST" (root +:+ "api/tool_shed/search")
     (Params (<["tool_shed_url" := shed]> {["term" := term]}))].

End Views.

(** None of these calls is given an error callback: [fetch()] has no
    options, and [$.get] and [$.post] get a success callback only. *)
Definition error_callback (c : call) : option (jv -> list effect) :=
  match c with
  | WorkflowsFetch | ShowRepository | QueueRepository
  | QueueRepositoryMetadata | CategoriesFetch | Search => None
  end.

End Toolshed.

(** ** The requests of the four views and their error callbacks *)

Module Views.

Inductive call_site : Type :=
| BuildModel
| PostChange
| Submit
| Shed (c : Toolshed.call).

Section Failure.
Variable object_text : jv -> string.
Variable root : string.
Variable field : Type.
Variable jq_param : list (string * string) -> string.

(** A failed request as its error callback sees it: the response and
    its status, and what the callback closes over. *)
Record failure := {
  response : jv;
  status : Z;
  view_empty : bool;
  modal_there : bool;
  the_form : ToolForm.form field;
  tool : ToolForm.attributes;
  sent : request;
  completion : bool
}.

Definition error_callback (site : call_site)
    : option (failure -> list effect) :=
  match site with
  | BuildModel =>
      Some (fun x =>
        ToolForm.buildmodel_error object_text root jq_param
          (view_empty x) (modal_there x) (tool x) (response x) (status x))
  | PostChange => Some (fun x => ToolForm.postchange_error (response x))
  | Submit =>
      Some (fun x =>
        ToolForm.submit_error object_text (the_form x) (sent x)
          (completion x) (response x))
  | Shed c =>
      match Toolshed.error_callback c with
      | Some h => Some (fun x => h (response x))
      | None => None
      end
  end.

End Failure.

Arguments response {field}.
Arguments status {field}.
Arguments view_empty {field}.
Arguments modal_there {field}.
Arguments the_form {field}.
Arguments tool {field}.
Arguments sent {field}.
Arguments completion {field}.
Arguments error_callback object_text root {field} jq_param.

End Views.

(** ** Sample pages

    Concrete forms, requests and pages on which the statements below are
    evaluated. *)

Module Examples.
Import ToolForm ErrorModal.

(** An engine that prints every object the default way, a localization
    without a table, and a [$.param] for a single pair. *)
Definition object_text (v : jv) : string := "[object Object]".
Definition localize (v : jv) : jv := v.
Definition jq_param (pairs : list (string * string)) : string :=
  match pairs with
  | (k, v) :: _ => k +:+ "=" +:+ v
  | [] => ""
  end.

Definition required : input := {| optional := false |}.

(** A form with three required data parameters [a], [b] and [c], each
    entry named like its field, holding the entries [t]; a response to it
    names the field [b] when it has an [err_data]. *)
Definition three_fields (t : list (string * value)) : form unit := {|
  data_match := fun a => Some a;
  field_list := <["a" := tt]> (<["b" := tt]> (<["c" := tt]> ∅));
  input_list :=
    <["a" := required]> (<["b" := required]> (<["c" := required]> ∅));
  data_create := t;
  data_matchResponse := fun err_data =>
    match get err_data "b" with
    | JStr message => [("b", message)]
    | _ => []
    end
|}.

Definition hda : option selection :=
  Some {| sel_id := "f2db41e1fa331b3e"; src := Some "hda" |}.
Definition hdca : option selection :=
  Some {| sel_id := "f597429621d6eb2b"; src := Some "hdca" |}.

Definition request_of (t : list (string * value)) : request :=
  {| tool_id := JStr "cat1"; tool_version := JStr "1.0.0"; inputs := t |}.

(** Two required parameters left empty. *)
Definition both_missing : list (string * value) :=
  [("a", VNull); ("b", VNull)].

(** One dataset against two dataset lists. *)
Definition one_hda_two_hdca : list (string * value) :=
  [("a", VData true [hda]); ("b", VData true [hdca; hdca])].

(** One dataset against two datasets. *)
Definition one_hda_two_hda : list (string * value) :=
  [("a", VData true [hda]); ("b", VData true [hda; hda])].

(** One dataset, two datasets, two dataset lists. *)
Definition counts_before_kinds : list (string * value) :=
  [("a", VData true [hda]); ("b", VData true [hda; hda]);
   ("c", VData true [hdca; hdca])].

Definition cat1 : attributes := {|
  id := JStr "cat1";
  version := JStr "1.0.0";
  job_id := JUndef;
  action := JStr "/tool_runner/index";
  method := JStr "post";
  enctype := JStr "application/x-www-form-urlencoded"
|}.

Definition cat1_rerun : attributes := {|
  id := JStr "cat1";
  version := JStr "1.0.0";
  job_id := JStr "bbd44e69cb8906b5";
  action := JStr "/tool_runner/index";
  method := JStr "post";
  enctype := JStr "application/x-www-form-urlencoded"
|}.

(** The page was opened as [?tool_id=&hid=3]. *)
Definition empty_tool_id : gmap string jv :=
  <["tool_id" := JStr ""]> {["hid" := JStr "3"]}.

Definition with_modal : window := {|
  Galaxy := Some {| modal := true; config := JObj [("version_major", JStr "17.09")];
                    lastAjax := JObj [("url", JStr "/api/histories")];
                    user := JObj [("toJSON",
                                   JFun (JObj [("id", JStr "f2db41e1fa331b3e");
                                               ("email", JStr "user@example.org")]))] |};
  Raven := JUndef;
  userAgent := "Mozilla/5.0";
  onLine := true
|}.

Definition without_galaxy : window := {|
  Galaxy := None;
  Raven := JUndef;
  userAgent := "Mozilla/5.0";
  onLine := true
|}.

(** A jqXHR: two data properties and two methods. *)
Definition xhr : jv :=
  JObj [("readyState", JNum 4); ("abort", JFun JUndef);
        ("status", JNum 500); ("done", JFun JUndef)].

Definition field_error : jv :=
  JObj [("err_msg", JStr "Parameter b: invalid");
        ("err_data", JObj [("b", JStr "invalid")])].

End Examples.

(** ** The replies to the requests of the tool form, and the Execute
    button *)

Module ToolFormReplies.
Import ToolForm.

(** One dataset of a job response: [{hid, name}]. *)
Record output := { hid : jv; name : jv }.

(** The response to the job request, as the success callback reads it:
    [jobs] when it is an array, and the [outputs] ([_.each] walks nothing
    when they are missing). *)
Record response := {
  jobs : option (list jv);
  outputs : list output
}.

(** What [_templateSuccess] builds: the message with one row per dataset
    and the closing paragraph, or the element of [_templateError] with
    the dump of the response. *)
Inductive result_content : Type :=
| DoneMessage (text : string) (rows : list string) (footer : string)
| ErrorMessage (text : string) (dump : response).

(** What the callbacks do beyond the effects of the requests. *)
Inductive step : Type :=
| Effect (e : effect)
| ButtonWait
| ButtonUnwait
| PortletDisable
| PortletEnable
| ModelSet (attributes : jv)
| Customize
| FormUpdate (model : jv)
| HideChildren
| AppendResult (body : result_content)
| AppendWebhookHolder
| WebhookView (urlRoot : string) (toolId : jv)
| RefreshHistory.

Definition is_unwait (s : step) : bool :=
  match s with ButtonUnwait => true | _ => false end.

Definition is_enable (s : step) : bool :=
  match s with PortletEnable => true | _ => false end.

Definition is_settle (s : step) : bool :=
  match s with Effect Resolve | Effect Reject => true | _ => false end.

(** The XHR of [submit], whose callbacks run on the reply. *)
Definition posts (s : step) : bool :=
  match s with Effect (Ajax _ _ _) => true | _ => false end.

Definition is_webhook (s : step) : bool :=
  match s with WebhookView _ _ => true | _ => false end.

Definition is_done (c : result_content) : bool :=
  match c with DoneMessage _ _ _ => true | ErrorMessage _ _ => false end.

(** The two kinds of effects of [validate]. *)
Definition is_mark (e : effect) : bool :=
  match e with Highlight _ _ | Debug _ _ => true | _ => false end.

(** What the user can see of a failure. *)
Definition is_shown (e : effect) : bool :=
  match e with
  | Redirect _ | PrependMessage _ | ModalShow _ _ _ _ | Alert _ => true
  | _ => false
  end.

(** The Details section of the error dialog. *)
Definition is_details (e : effect) : bool :=
  match e with
  | DetailsClear | DetailsAppend _ _ | DetailsButton _ => true
  | _ => false
  end.

(** The waiting flag of the form after the steps [tr], when it was [w]
    before: the argument of the last [form.wait]. *)
Definition waiting (tr : list step) (w : bool) : bool :=
  fold_left
    (fun w s => match s with Effect (FormWait b) => b | _ => w end) tr w.

(** [e.jobs && e.jobs.length > 0]. *)
Definition has_jobs (e : response) : bool :=
  match jobs e with Some (_ :: _) => true | _ => false end.

(** The steps [tr] with every call of the completion callback replaced by
    the steps of its [body]. *)
Definition run_callback (body : list step) (tr : list step) : list step :=
  flat_map
    (fun s => match s with Effect Callback => body | _ => [s] end) tr.

(** The callback [_customize] passes to [submit]:
    [i.unwait(), e.portlet.enable()]. *)
Definition execute_done : list step := [ButtonUnwait; PortletEnable].

Section Replies.
Variable object_text : jv -> string.
Variable root : string.
Variable field : Type.

Definition _templateSuccess (e : response) : result_content :=
  match jobs e with
  | Some ((_ :: _) as js) =>
      let t := Z.of_nat (length js) in
      let o := if Z.eqb 1 t then "1 job has" else pretty t +:+ " jobs have" in
      DoneMessage
        (o +:+ " been successfully added to the queue - resulting in the following datasets:")
        (map (fun e => to_str object_text (hid e) +:+ ": "
                       +:+ to_str object_text (name e))
           (outputs e))
        "You can check the status of queued jobs and view the resulting data by refreshing the History pane. When the job has been run the status will change from 'running' to 'finished' if completed successfully or 'error' if problems were encountered."
  | _ =>
      ErrorMessage
        ("The server could not complete the request. Please contact the Galaxy Team if this error persists. "
         +:+ "Invalid success response. No jobs found.")
        e
  end.

(** The [success] callback of the request of [submit]; [history] says
    whether [parent.Galaxy.currHistoryPanel] is there. *)
Definition submit_success (i : request) (t : bool) (history : bool)
    (e : response) : list step :=
  map Effect (callback t) ++
  [HideChildren; AppendResult (_templateSuccess e)] ++
  (if has_jobs e then
     [AppendWebhookHolder;
      WebhookView (root +:+ "api/webhooks/tool") (tool_id i)]
   else []) ++
  (if history then [RefreshHistory] else []).

(** The [success] callback of [buildmodel], for the response, an
    object with the properties [i]. *)
Definition buildmodel_success (i : list (string * jv)) : list step :=
  if truthy (get (JObj i) "display") then
    [ModelSet (JObj i); Customize;
     Effect (Debug "tool-form-base::_buildModel()" "Initial tool model ready.");
     Effect Resolve]
  else [Effect (Redirect root)].

(** The [success] callback of [postchange], for the response [o]. *)
Definition postchange_success (o : jv) : list step :=
  [FormUpdate o; Effect (FormWait false);
   Effect (Debug "tool-form::postchange()" "Received new model.");
   Effect Resolve].

(** A reply of the server to a request: the response handed to the
    success callback, or the one handed to the error callback with the
    status. *)
Inductive reply (A : Type) : Type :=
| Succeeded (e : A)
| Failed (e : jv) (status : Z).

(** The [onclick] of the Execute button built by [_customize]. *)
Definition execute_onclick (f : form field) (o : attributes) : list step :=
  [ButtonWait; PortletDisable] ++
  run_callback execute_done (map Effect (submit root f o true)).

(** The callback that runs on the reply to the job request that a click
    on Execute sent. *)
Definition execute_reply (f : form field) (o : attributes)
    (history : bool) (r : reply response) : list step :=
  run_callback execute_done
    match r with
    | Succeeded _ e => submit_success (job_request f o) true history e
    | Failed _ e _ =>
        map Effect (submit_error object_text f (job_request f o) true e)
    end.

(** The callback that runs on the reply to the request of [buildmodel]. *)
Definition buildmodel_reply (jq_param : list (string * string) -> string)
    (empty modal : bool) (i : attributes) (r : reply (list (string * jv)))
    : list step :=
  match r with
  | Succeeded _ e => buildmodel_success e
  | Failed _ e a =>
      map Effect (buildmodel_error object_text root jq_param empty modal i e a)
  end.

(** The callback that runs on the reply to the request of [postchange]. *)
Definition postchange_reply (r : reply jv) : list step :=
  match r with
  | Succeeded _ e => postchange_success e
  | Failed _ e _ => map Effect (postchange_error e)
  end.

End Replies.

Arguments Succeeded {A}.
Arguments Failed {A}.
Arguments execute_onclick root {field}.
Arguments execute_reply object_text root {field}.

(** The entries of a request that the form does not resolve. *)
Definition unresolved {field : Type} (f : form field)
    (t : list (string * value)) : list (string * value) :=
  filter (fun entry => resolve f (fst entry) = None) t.

(** The three rules of [validate] in words, for the entries [t]: no
    entry with a known, non-optional parameter is [null]; all batch-mode
    fields have the same selection count; all batch-mode fields that
    have a source kind have the same one. *)
Definition accepted {field : Type} (f : form field)
    (t : list (string * value)) : Prop :=
  (forall a l r n s, (a, l) ∈ t -> resolve f a = Some (r, n, s) ->
                     optional n = false -> l <> VNull)
  /\ (forall v1 v2, v1 ∈ batch_fields f t -> v2 ∈ batch_fields f t ->
                    length v1 = length v2)
  /\ (forall v1 v2 u1 u2, v1 ∈ batch_fields f t -> v2 ∈ batch_fields f t ->
                          source_kind v1 = Some u1 ->
                          source_kind v2 = Some u2 -> u1 = u2).

End ToolFormReplies.

(** ** The routes and the tool shed urls of the toolshed browsers *)

Module ToolshedRoutes.

(** [s.replace(/c/g, by)] for a single character [c]. *)
Fixpoint replace_char (c : Ascii.ascii) (by_ : string) (s : string) : string :=
  match s with
  | EmptyString => EmptyString
  | String x s' =>
      if Ascii.eqb x c then by_ +:+ replace_char c by_ s'
      else String x (replace_char c by_ s')
  end.

(** [s.replace(/%2f/g, "/")]: every occurrence, from left to right. *)
Fixpoint unescape_slashes (s : string) : string :=
  match s with
  | EmptyString => EmptyString
  | String x s' =>
      match s' with
      | String y (String z rest) =>
          if Ascii.eqb x "%"%char && Ascii.eqb y "2"%char
             && Ascii.eqb z "f"%char
          then String "/"%char (unescape_slashes rest)
          else String x (unescape_slashes s')
      | _ => String x (unescape_slashes s')
      end
  end.

(** The text after a leading [2f], when there is one. *)
Definition after_2f (s : string) : option string :=
  match s with
  | String y (String z rest) =>
      if Ascii.eqb y "2"%char && Ascii.eqb z "f"%char then Some rest
      else None
  | _ => None
  end.

(** Whether the character [c] occurs in [s]. *)
Fixpoint occurs (c : Ascii.ascii) (s : string) : bool :=
  match s with
  | EmptyString => false
  | String x s' => Ascii.eqb x c || occurs c s'
  end.

(** [e.replace(/:/g, "%3a").replace(/\//g, "%2f")], the tool shed as the
    workflows view puts it in a route. *)
Definition escape_shed (shed : string) : string :=
  replace_char "/"%char "%2f" (replace_char ":"%char "%3a" shed).

(** [t.tool_shed.replace(/\//g, "%2f")], the tool shed as the categories
    view stores it in [model.tool_shed]. *)
Definition initialize_tool_shed (tool_shed : string) : string :=
  replace_char "/"%char "%2f" tool_shed.

Section Routes.
Variable object_text : jv -> string.
Variable root : string.

(** The route the success callback of [.show_wf_repo] navigates to, for
    the button's [data-shed] and the repository id of the response. *)
Definition show_route (shed : string) (repository_id : jv) : string :=
  "repository/s/" +:+ escape_shed shed +:+ "/r/"
  +:+ to_str object_text repository_id.

(** The route [select] of the search box navigates to. *)
Definition select_route (model_tool_shed : string) (value : jv) : string :=
  "repository/s/" +:+ model_tool_shed +:+ "/r/" +:+ to_str object_text value.

(** The request [source] of the search box sends, for the
    [model.tool_shed] of the view. *)
Definition search_source (model_tool_shed : string) (term : jv)
    : list effect :=
  Toolshed.search root term (JStr (unescape_slashes model_tool_shed)).

End Routes.

End ToolshedRoutes.

(** ** More sample requests *)

Module MoreExamples.

(** A text parameter that is filled in, and an entry the form does not
    know. *)
Definition one_unknown : list (string * value) :=
  [("a", VScalar "30"); ("hidden|extra", VNull)].

End MoreExamples.

(** * Properties *)

(** ** The validation of a job request *)

Module ToolFormSpec.
Import ToolForm.

Section ValidateFacts.
Context {field : Type} (f : form field).

Implicit Types (t pre post : list (string * value)) (o d : Z)
  (i : option string) (tr : list effect) (l : value)
  (values : list (option selection)).

(** The two ways the body of the batch test ends. *)
Lemma check_batch_next r values o i o' i' tr :
  check_batch r values o i = (Next o' i', tr) ->
  tr = []
  /\ o' = Z.of_nat (length values)
  /\ (o = -1 \/ o = Z.of_nat (length values))
  /\ i' = match source_kind values with Some u => Some u | None => i end
  /\ (i = None \/ source_kind values = None \/ source_kind values = i).
Proof.
  unfold check_batch.
  destruct (source_kind values) as [u|], i as [i0|];
    try destruct (String.eqb_spec i0 u) as [->|Hne]; try discriminate;
    (destruct (Z.eqb_spec (-1) o) as [<-|Ho];
     [|destruct (Z.eqb_spec o (Z.of_nat (length values))) as [->|Hd];
       [|discriminate]]);
    intros [= <- <- <-]; auto 10.
Qed.

Lemma check_batch_return r values o i b tr :
  check_batch r values o i = (Return b, tr) ->
  b = false
  /\ ((tr = [Highlight r (Some kinds_message)]
       /\ exists j u, i = Some j /\ source_kind values = Some u /\ j <> u)
      \/ (tr = [Highlight r (Some (counts_message (Z.of_nat (length values)) o))]
          /\ o <> -1 /\ o <> Z.of_nat (length values))).
Proof.
  assert (Hcount : forall i',
    (if Z.eqb (-1) o then (Next (Z.of_nat (length values)) i', [])
     else if Z.eqb o (Z.of_nat (length values)) then (Next o i', [])
     else (Return false,
           [Highlight r
              (Some (counts_message (Z.of_nat (length values)) o))]))
    = (Return b, tr) ->
    b = false
    /\ tr = [Highlight r (Some (counts_message (Z.of_nat (length values)) o))]
    /\ o <> -1 /\ o <> Z.of_nat (length values)).
  { intros i'.
    destruct (Z.eqb_spec (-1) o) as [<-|Ho]; [discriminate|].
    destruct (Z.eqb_spec o (Z.of_nat (length values))) as [->|Hd];
      [discriminate|].
    intros [= <- <-]. auto. }
  unfold check_batch.
  destruct (source_kind values) as [u|], i as [j|];
    try destruct (String.eqb_spec j u) as [->|Hne];
    try (intros H; apply Hcount in H as (-> & H); split; [reflexivity|right; exact H]).
  intros [= <- <-]. split; [reflexivity|]. left. split; [reflexivity|].
  exists j, u. auto.
Qed.

(** What a turn of the loop that does not return has checked. *)
Lemma check_input_next o i a l o' i' tr :
  check_input f o i a l = (Next o' i', tr) ->
  (forall r n s, resolve f a = Some (r, n, s) ->
                 optional n = false -> l <> VNull)
  /\ Forall (fun x => is_highlight x = false) tr
  /\ ((batch_values f (a, l) = None /\ o' = o /\ i' = i)
      \/ exists values,
           batch_values f (a, l) = Some values
           /\ o' = Z.of_nat (length values)
           /\ (o = -1 \/ o = Z.of_nat (length values))
           /\ i' = match source_kind values with Some u => Some u | None => i end
           /\ (i = None \/ source_kind values = None \/ source_kind values = i)).
Proof.
  unfold check_input, batch_values; simpl.
  destruct (resolve f a) as [[[r n] s]|] eqn:Hr.
  - destruct (optional n) eqn:Hopt, l as [|txt|[|] values]; simpl;
      try discriminate;
      try (intros [= <- <- <-]; split; [congruence|split; [constructor|left; auto]]);
      intros H; apply check_batch_next in H as (-> & H);
      (split; [congruence|split; [constructor|right; eauto]]).
  - intros [= <- <- <-]. split; [congruence|].
    split; [repeat constructor|left; auto].
Qed.

(** A turn of the loop that returns, returns [false] and highlights the
    field of its entry. *)
Lemma check_input_return o i a l b tr :
  check_input f o i a l = (Return b, tr) ->
  b = false
  /\ exists r n s,
       resolve f a = Some (r, n, s)
       /\ ((optional n = false /\ l = VNull /\ tr = [Highlight r None])
           \/ exists values,
                l = VData true values
                /\ check_batch r values o i = (Return false, tr)).
Proof.
  unfold check_input.
  destruct (resolve f a) as [[[r n] s]|] eqn:Hr; [|discriminate].
  destruct (optional n) eqn:Hopt, l as [|txt|[|] values]; simpl;
    try discriminate;
    try (intros [= <- <-]; split; [reflexivity|]; exists r, n, s; auto);
    intros H; destruct (check_batch_return _ _ _ _ _ _ H) as [-> _];
    (split; [reflexivity|]; exists r, n, s; split; [reflexivity|]; right; eauto).
Qed.

Lemma batch_fields_cons a l t :
  batch_fields f ((a, l) :: t) =
  match batch_values f (a, l) with
  | Some values => values :: batch_fields f t
  | None => batch_fields f t
  end.
Proof.
  unfold batch_fields; simpl. destruct (batch_values f (a, l)); reflexivity.
Qed.

Lemma after_o_nil o : after_o f [] o = o.
Proof.
  unfold after_o, first_count.
  destruct (Z.eqb_spec (-1) o) as [<-|]; reflexivity.
Qed.

Lemma after_i_nil i : after_i f [] i = i.
Proof. destruct i; reflexivity. Qed.

(** The loop state after one more passed entry. *)
Lemma after_cons o i a l o' i' tr t :
  check_input f o i a l = (Next o' i', tr) ->
  after_o f ((a, l) :: t) o = after_o f t o'
  /\ after_i f ((a, l) :: t) i = after_i f t i'.
Proof.
  intros H. apply check_input_next in H as (_ & _ & H).
  unfold after_o, after_i, first_count, first_kind.
  rewrite batch_fields_cons.
  destruct H as [(-> & -> & ->)|(values & -> & -> & Ho & -> & Hi)]; [auto|].
  split.
  - destruct (Z.eqb_spec (-1) (Z.of_nat (length values))) as [E|_]; [lia|].
    destruct Ho as [->| ->]; [reflexivity|].
    destruct (Z.eqb_spec (-1) (Z.of_nat (length values))); [lia|reflexivity].
  - cbn. destruct (source_kind values) as [u|] eqn:Hk; cbn.
    + destruct Hi as [->|[Hi| <-]]; try reflexivity; discriminate.
    + reflexivity.
Qed.

(** When the loop passes the entries [t]: no required field is missing
    among them, every batch-mode field has the count and the source kind
    the loop holds afterwards, and the loop goes on from that state. *)
Lemma validate_loop_pass t : forall o i tr,
  validate_loop f t o i = (true, tr) ->
  Forall (fun entry => forall r n s,
            resolve f (fst entry) = Some (r, n, s) ->
            optional n = false -> snd entry <> VNull) t
  /\ Forall (fun values =>
               after_o f t o = Z.of_nat (length values)
               /\ forall u, source_kind values = Some u ->
                            after_i f t i = Some u)
       (batch_fields f t)
  /\ Forall (fun x => is_highlight x = false) tr
  /\ forall post,
       validate_loop f (t ++ post) o i =
       let (b, tr') := validate_loop f post (after_o f t o) (after_i f t i) in
       (b, tr ++ tr').
Proof.
  induction t as [|[a l] t IH]; intros o i tr H.
  - simpl in H. injection H as <-.
    rewrite after_o_nil, after_i_nil.
    repeat split; try constructor.
    intros post; simpl. destruct (validate_loop f post o i); reflexivity.
  - simpl in H.
    destruct (check_input f o i a l) as [[o' i'|b] tr1] eqn:Hstep.
    + destruct (validate_loop f t o' i') as [b tr2] eqn:Hrest.
      injection H as -> <-.
      destruct (IH _ _ _ Hrest) as (IH1 & IH2 & IH3 & IH4).
      destruct (after_cons _ _ _ _ _ _ _ t Hstep) as [Eo Ei].
      pose proof (check_input_next _ _ _ _ _ _ _ Hstep) as (Hreq & Htr & Hb).
      rewrite Eo, Ei. repeat split.
      * constructor; [exact Hreq|exact IH1].
      * rewrite batch_fields_cons.
        destruct Hb as [(-> & _)|(values & -> & Ho' & _ & Hi' & _)]; [exact IH2|].
        constructor; [|exact IH2]. split.
        -- unfold after_o. subst o'.
           destruct (Z.eqb_spec (-1) (Z.of_nat (length values))); [lia|reflexivity].
        -- intros u Hu. rewrite Hu in Hi'. subst i'. reflexivity.
      * apply Forall_app; auto.
      * intros post; simpl. rewrite Hstep, IH4.
        destruct (validate_loop f post _ _). rewrite app_assoc. reflexivity.
    + injection H as -> <-.
      apply check_input_return in Hstep as [? _]; discriminate.
Qed.

(** When the loop returns [false], exactly one field is highlighted, by
    the last effect. *)
Lemma validate_loop_fail t : forall o i tr,
  validate_loop f t o i = (false, tr) ->
  exists tr0 r m,
    tr = tr0 ++ [Highlight r m]
    /\ Forall (fun x => is_highlight x = false) tr0.
Proof.
  induction t as [|[a l] t IH]; intros o i tr H; [discriminate|].
  simpl in H.
  destruct (check_input f o i a l) as [[o' i'|b] tr1] eqn:Hstep.
  - destruct (validate_loop f t o' i') as [b tr2] eqn:Hrest.
    injection H as -> <-.
    destruct (IH _ _ _ Hrest) as (tr0 & r & m & -> & Hall).
    apply check_input_next in Hstep as (_ & Htr & _).
    exists (tr1 ++ tr0), r, m. rewrite app_assoc. split; [reflexivity|].
    apply Forall_app; auto.
  - injection H as -> <-.
    apply check_input_return in Hstep as (_ & r & n & s & _ & [(_ & _ & ->)|(values & _ & Hb)]).
    + exists [], r, None. split; [reflexivity|constructor].
    + apply check_batch_return in Hb as (_ & [(-> & _)|(-> & _)]);
        eexists [], r, _; (split; [reflexivity|constructor]).
Qed.

Lemma kinds_message_not_counts d o : kinds_message <> counts_message d o.
Proof. unfold kinds_message, counts_message; simpl; discriminate. Qed.

(** With one count [c] for all the batch-mode fields, no turn of the
    loop reports a count. *)
Lemma validate_loop_same_count c t : forall o i,
  Forall (fun values => Z.of_nat (length values) = c) (batch_fields f t) ->
  o = -1 \/ o = c ->
  forall r d o',
    Highlight r (Some (counts_message d o')) ∉ snd (validate_loop f t o i).
Proof.
  induction t as [|[a l] t IH]; intros o i Hall Ho r d o0; simpl.
  - apply not_elem_of_nil.
  - rewrite batch_fields_cons in Hall.
    destruct (check_input f o i a l) as [[o' i'|b] tr1] eqn:Hstep.
    + apply check_input_next in Hstep as (_ & Htr & Hb).
      specialize (IH o' i').
      destruct (validate_loop f t o' i') as [b tr2]; simpl in IH |- *.
      rewrite elem_of_app. intros [Hin|Hin].
      * rewrite Forall_forall in Htr. apply Htr in Hin. discriminate.
      * revert Hin. apply IH.
        -- destruct Hb as [(Hv & _)|(values & Hv & _)];
             rewrite Hv in Hall; [exact Hall|].
           inversion Hall; assumption.
        -- destruct Hb as [(_ & -> & _)|(values & Hv & -> & _)]; [exact Ho|].
           rewrite Hv in Hall. inversion Hall; auto.
    + simpl.
      apply check_input_return in Hstep
        as (_ & r' & n & s & Hr & [(_ & _ & ->)|(values & -> & Hb)]).
      * rewrite list_elem_of_singleton. discriminate.
      * assert (Hv : batch_values f (a, VData true values) = Some values)
          by (unfold batch_values; simpl; rewrite Hr; reflexivity).
        rewrite Hv in Hall. inversion Hall as [|? ? Hc _]; subst.
        apply check_batch_return in Hb as (_ & [(-> & _)|(-> & Hne1 & Hne2)]).
        -- rewrite list_elem_of_singleton. intros E.
           apply (kinds_message_not_counts d o0). congruence.
        -- destruct Ho; congruence.
Qed.

(** C1, as amended.  Let an entry of the request resolve to a field of
    the form whose parameter is not optional, and let its value be
    [null].  Then [validate] returns [false] and highlights exactly one
    field, by its last effect: the first field, in the order of the
    entries, that fails a check.  It is the field of that entry as soon
    as the entries before it pass.  And [validate] returns [true] only
    when no entry with a known, non-optional parameter is [null]. *)
Theorem validate_required_missing (e : request) :
  (forall pre a post r n s,
     inputs e = pre ++ (a, VNull) :: post ->
     resolve f a = Some (r, n, s) ->
     optional n = false ->
     fst (validate f e) = false
     /\ (exists tr0 r' m,
           snd (validate f e) = tr0 ++ [Highlight r' m]
           /\ Forall (fun x => is_highlight x = false) tr0)
     /\ (forall tr,
           validate f (with_inputs e pre) = (true, tr) ->
           validate f e = (false, tr ++ [Highlight r None])))
  /\ (fst (validate f e) = true ->
      forall a l r n s,
        (a, l) ∈ inputs e ->
        resolve f a = Some (r, n, s) ->
        optional n = false ->
        l <> VNull).
Proof.
  assert (Hpass : fst (validate f e) = true ->
    forall a l r n s, (a, l) ∈ inputs e ->
      resolve f a = Some (r, n, s) -> optional n = false -> l <> VNull).
  { unfold validate. destruct (validate_loop f (inputs e) (-1) None) as [b tr] eqn:H.
    simpl. intros ->. apply validate_loop_pass in H as (H & _).
    rewrite Forall_forall in H. intros a l r n s Hin. exact (H (a, l) Hin r n s). }
  split; [|exact Hpass].
  intros pre a post r n s He Hr Hopt.
  assert (Hfalse : fst (validate f e) = false).
  { destruct (fst (validate f e)) eqn:Hv; [|reflexivity].
    exfalso. apply (Hpass eq_refl a VNull r n s); auto.
    rewrite He, elem_of_app, elem_of_cons. auto. }
  split; [exact Hfalse|]. split.
  - unfold validate in *.
    destruct (validate_loop f (inputs e) (-1) None) as [b tr] eqn:H.
    simpl in Hfalse; subst b. exact (validate_loop_fail _ _ _ _ H).
  - unfold validate; simpl. intros tr H.
    apply validate_loop_pass in H as (_ & _ & _ & H).
    rewrite He, H. simpl. unfold check_input. rewrite Hr, Hopt. reflexivity.
Qed.

(** C2, as amended.  If two batch-mode fields of the request have
    different selection counts, [validate] returns [false].  The count
    message goes to the first field that fails a check: when the entries
    before a batch-mode field pass, its count differs from the count of
    the first batch-mode field, and its source kind does not clash with
    the first source kind, that field is highlighted with the message
    stating its count and the count of the first batch-mode field.  If
    all batch-mode fields have the same count, no count message is
    produced. *)
Theorem validate_batch_counts (e : request) :
  (forall v1 v2,
     v1 ∈ batch_fields f (inputs e) ->
     v2 ∈ batch_fields f (inputs e) ->
     length v1 <> length v2 ->
     fst (validate f e) = false)
  /\ (forall pre a values post r n s tr,
        inputs e = pre ++ (a, VData true values) :: post ->
        resolve f a = Some (r, n, s) ->
        validate f (with_inputs e pre) = (true, tr) ->
        first_count f pre <> -1 ->
        first_count f pre <> Z.of_nat (length values) ->
        (forall u j, source_kind values = Some u ->
                     first_kind f pre = Some j -> j = u) ->
        validate f e =
        (false,
         tr ++ [Highlight r
                  (Some (counts_message (Z.of_nat (length values))
                           (first_count f pre)))]))
  /\ ((forall v1 v2,
         v1 ∈ batch_fields f (inputs e) ->
         v2 ∈ batch_fields f (inputs e) ->
         length v1 = length v2) ->
      forall r d o,
        Highlight r (Some (counts_message d o)) ∉ snd (validate f e)).
Proof.
  split; [|split].
  - intros v1 v2 H1 H2 Hne.
    unfold validate.
    destruct (validate_loop f (inputs e) (-1) None) as [[|] tr] eqn:H;
      [|reflexivity].
    apply validate_loop_pass in H as (_ & H & _).
    rewrite Forall_forall in H.
    destruct (H _ H1) as [E1 _], (H _ H2) as [E2 _]. lia.
  - intros pre a values post r n s tr He Hr Hpre Hc1 Hc2 Hk.
    unfold validate in *; simpl in Hpre.
    apply validate_loop_pass in Hpre as (_ & _ & _ & H).
    rewrite He, H. unfold after_o, after_i; simpl.
    unfold check_input. rewrite Hr.
    replace (negb (optional n) && value_nullish (VData true values))
      with false by (destruct (optional n); reflexivity).
    unfold check_batch.
    destruct (Z.eqb_spec (-1) (first_count f pre)) as [E|_]; [congruence|].
    destruct (Z.eqb_spec (first_count f pre) (Z.of_nat (length values)))
      as [E|_]; [congruence|].
    destruct (source_kind values) as [u|] eqn:Hu; [|reflexivity].
    destruct (first_kind f pre) as [j|] eqn:Hj; [|reflexivity].
    rewrite (Hk u j eq_refl eq_refl), String.eqb_refl. reflexivity.
  - intros Hsame r d o. unfold validate.
    destruct (batch_fields f (inputs e)) as [|v0 vs] eqn:Hbf.
    + apply (validate_loop_same_count 0); [rewrite Hbf; constructor|auto].
    + apply (validate_loop_same_count (Z.of_nat (length v0))); [|auto].
      rewrite Forall_forall. intros v Hv. rewrite Hbf in Hv.
      rewrite (Hsame v v0); [reflexivity|exact Hv|left].
Qed.

(** C3, as amended.  If two batch-mode fields of the request have
    different source kinds, [validate] returns [false].  When the entries
    before a batch-mode field pass and its source kind differs from the
    first source kind among them, that field is highlighted with the
    message asking for either dataset or dataset list fields. *)
Theorem validate_batch_kinds (e : request) :
  (forall v1 v2 u1 u2,
     v1 ∈ batch_fields f (inputs e) ->
     v2 ∈ batch_fields f (inputs e) ->
     source_kind v1 = Some u1 ->
     source_kind v2 = Some u2 ->
     u1 <> u2 ->
     fst (validate f e) = false)
  /\ (forall pre a values post r n s tr u j,
        inputs e = pre ++ (a, VData true values) :: post ->
        resolve f a = Some (r, n, s) ->
        validate f (with_inputs e pre) = (true, tr) ->
        source_kind values = Some u ->
        first_kind f pre = Some j ->
        j <> u ->
        validate f e = (false, tr ++ [Highlight r (Some kinds_message)])).
Proof.
  split.
  - intros v1 v2 u1 u2 H1 H2 Hu1 Hu2 Hne.
    unfold validate.
    destruct (validate_loop f (inputs e) (-1) None) as [[|] tr] eqn:H;
      [|reflexivity].
    apply validate_loop_pass in H as (_ & H & _).
    rewrite Forall_forall in H.
    destruct (H _ H1) as [_ E1], (H _ H2) as [_ E2].
    specialize (E1 _ Hu1). specialize (E2 _ Hu2). congruence.
  - intros pre a values post r n s tr u j He Hr Hpre Hu Hj Hne.
    unfold validate in *; simpl in Hpre.
    apply validate_loop_pass in Hpre as (_ & _ & _ & H).
    rewrite He, H. unfold after_i; simpl.
    unfold check_input. rewrite Hr.
    replace (negb (optional n) && value_nullish (VData true values))
      with false by (destruct (optional n); reflexivity).
    unfold check_batch. rewrite Hu, Hj.
    destruct (String.eqb_spec j u) as [E|_]; [congruence|reflexivity].
Qed.

End ValidateFacts.

Import Examples.

(** With [a] and [b] both empty, [a] is the field highlighted. *)
Lemma validate_required_missing_witness :
  validate (three_fields both_missing) (request_of both_missing)
  = (false, [Highlight "a" None]).
Proof.
  exact (proj2 (proj2
    (proj1 (validate_required_missing (three_fields both_missing)
              (request_of both_missing))
       [] "a" [("b", VNull)] "a" required tt eq_refl eq_refl eq_refl))
    [] eq_refl).
Defined.

(** C1 as stated fails for the second of two empty required fields:
    [validate] stops at the first one, and [b] is never highlighted. *)
Lemma second_missing_field_not_highlighted :
  let f := three_fields both_missing in
  let e := request_of both_missing in
  ("b", VNull) ∈ inputs e
  /\ resolve f "b" = Some ("b", required, tt)
  /\ optional required = false
  /\ validate f e = (false, [Highlight "a" None])
  /\ forall m, Highlight "b" m ∉ snd (validate f e).
Proof.
  cbv zeta. split; [|split; [|split; [|split]]]; try reflexivity.
  - unfold request_of, both_missing; simpl. rewrite !elem_of_cons. auto.
  - intros m. change (Highlight "b" m ∉ [Highlight "a" None]).
    rewrite list_elem_of_singleton. discriminate.
Qed.

(** One dataset against two datasets: [b] gets the count message. *)
Lemma validate_batch_counts_witness :
  validate (three_fields one_hda_two_hda) (request_of one_hda_two_hda)
  = (false, [Highlight "b" (Some (counts_message 2 1))]).
Proof.
  refine (proj1 (proj2
    (validate_batch_counts (three_fields one_hda_two_hda)
       (request_of one_hda_two_hda)))
    [("a", VData true [hda])] "b" [hda; hda] [] "b" required tt []
    eq_refl eq_refl eq_refl _ _ _).
  - discriminate.
  - discriminate.
  - intros u j [= <-] [= <-]. reflexivity.
Defined.

(** C2 as stated fails when the field whose count differs also has
    another source kind: the kinds are compared first, and no message
    states the counts. *)
Lemma count_mismatch_reported_as_kinds :
  let f := three_fields one_hda_two_hdca in
  let e := request_of one_hda_two_hdca in
  batch_fields f (inputs e) = [[hda]; [hdca; hdca]]
  /\ validate f e = (false, [Highlight "b" (Some kinds_message)])
  /\ forall r d o,
       Highlight r (Some (counts_message d o)) ∉ snd (validate f e).
Proof.
  cbv zeta. split; [|split]; try reflexivity.
  intros r d o.
  change (Highlight r (Some (counts_message d o))
          ∉ [Highlight "b" (Some kinds_message)]).
  rewrite list_elem_of_singleton. intros E.
  apply (kinds_message_not_counts d o). congruence.
Qed.

(** One dataset against two dataset lists: [b] gets the kinds message. *)
Lemma validate_batch_kinds_witness :
  validate (three_fields one_hda_two_hdca) (request_of one_hda_two_hdca)
  = (false, [Highlight "b" (Some kinds_message)]).
Proof.
  refine (proj2
    (validate_batch_kinds (three_fields one_hda_two_hdca)
       (request_of one_hda_two_hdca))
    [("a", VData true [hda])] "b" [hdca; hdca] [] "b" required tt []
    "hdca" "hda" eq_refl eq_refl eq_refl eq_refl eq_refl _).
  discriminate.
Defined.

(** C3 as stated fails when a field with another count comes before the
    field with another source kind: [validate] stops at the count, and
    no field gets the kinds message. *)
Lemma kind_mismatch_reported_as_counts :
  let f := three_fields counts_before_kinds in
  let e := request_of counts_before_kinds in
  batch_fields f (inputs e) = [[hda]; [hda; hda]; [hdca; hdca]]
  /\ source_kind [hda] = Some "hda"
  /\ source_kind [hdca; hdca] = Some "hdca"
  /\ validate f e = (false, [Highlight "b" (Some (counts_message 2 1))])
  /\ forall r, Highlight r (Some kinds_message) ∉ snd (validate f e).
Proof.
  cbv zeta. split; [|split; [|split; [|split]]]; try reflexivity.
  intros r.
  change (Highlight r (Some kinds_message)
          ∉ [Highlight "b" (Some (counts_message 2 1))]).
  rewrite list_elem_of_singleton. intros E.
  apply (kinds_message_not_counts 2 1). congruence.
Qed.

(** *** Submission *)

Section SubmitFacts.
Context (object_text : jv -> string) (root : string).
Context {field : Type} (f : form field).

Lemma check_input_feedback o i a l res tr :
  check_input f o i a l = (res, tr) ->
  Forall (fun x => is_feedback x = true) tr.
Proof.
  destruct res as [o' i'|b]; intros H.
  - unfold check_input in H.
    destruct (resolve f a) as [[[r n] s]|].
    + destruct (negb (optional n) && value_nullish l); [discriminate|].
      destruct l as [|txt|[|] values];
        try (injection H as _ _ <-; constructor).
      apply check_batch_next in H as [-> _]. constructor.
    + injection H as _ _ <-. repeat constructor.
  - apply check_input_return in H
      as (_ & r & n & s & _ & [(_ & _ & ->)|(values & _ & H)]).
    + repeat constructor.
    + apply check_batch_return in H as (_ & [(-> & _)|(-> & _)]);
        repeat constructor.
Qed.

(** [validate] only marks fields and writes debug lines. *)
Lemma validate_loop_feedback t : forall o i,
  Forall (fun x => is_feedback x = true) (snd (validate_loop f t o i)).
Proof.
  induction t as [|[a l] t IH]; intros o i; simpl; [constructor|].
  destruct (check_input f o i a l) as [[o' i'|b] tr1] eqn:Hstep;
    apply check_input_feedback in Hstep; [|exact Hstep].
  specialize (IH o' i').
  destruct (validate_loop f t o' i') as [b tr2]; simpl in *.
  apply Forall_app; auto.
Qed.

(** C8.  When [validate] rejects the request, [submit] resets the marks
    of the form, lets [validate] mark the failing field, writes a debug
    line and calls the completion callback when one was passed, and does
    nothing else: it sends no request, neither the POST to [api/tools]
    nor a form submission, and changes nothing else on the page. *)
Theorem submit_canceled (e : attributes) (t : bool) :
  fst (validate f (job_request f e)) = false ->
  submit root f e t =
    Trigger "reset" :: snd (validate f (job_request f e)) ++
    Debug "tool-form::submit()" "Submission canceled. Validation failed."
    :: callback t
  /\ Forall (fun x => is_request x = false) (submit root f e t)
  /\ Forall (fun x => is_feedback x = true) (submit root f e t)
  /\ (t = true -> exists tr, submit root f e t = tr ++ [Callback]).
Proof.
  intros Hv. unfold submit.
  pose proof (validate_loop_feedback (inputs (job_request f e)) (-1) None)
    as Hfb.
  fold (validate f (job_request f e)) in Hfb.
  destruct (validate f (job_request f e)) as [b tr]; simpl in Hv, Hfb |- *.
  subst b; simpl.
  assert (Hall : Forall (fun x => is_feedback x = true)
            (Trigger "reset" :: tr ++
             Debug "tool-form::submit()"
               "Submission canceled. Validation failed." :: callback t)).
  { constructor; [reflexivity|]. apply Forall_app. split; [exact Hfb|].
    constructor; [reflexivity|]. destruct t; repeat constructor. }
  split; [reflexivity|]. split; [|split; [exact Hall|]].
  - eapply Forall_impl; [exact Hall|]. intros [] ?; simpl in *; congruence.
  - intros ->. simpl.
    exists (Trigger "reset" :: tr ++
            [Debug "tool-form::submit()"
               "Submission canceled. Validation failed."]).
    simpl. rewrite <- app_assoc. reflexivity.
Qed.

(** C5.  When the response to the job request carries an [err_data] in
    which the form finds at least one field, the first field found is
    highlighted with its message and no dialog is shown.  When no field
    is found, the dialog "Job submission failed" is shown, and its body
    is the error template holding the dump of the request that was
    sent. *)
Theorem submit_error_surfaces (i : request) (t : bool) (e : jv) :
  (forall r message rest,
     truthy (js_and e (get e "err_data")) = true ->
     data_matchResponse f (get e "err_data") = (r, message) :: rest ->
     submit_error object_text f i t e =
       callback t ++
       [Debug "tool-form::submit" "Submission failed.";
        Highlight r (Some message)]
     /\ Forall (fun x => is_modal x = false)
          (submit_error object_text f i t e))
  /\ (truthy (js_and e (get e "err_data")) = false
      \/ data_matchResponse f (get e "err_data") = [] ->
      submit_error object_text f i t e =
        callback t ++
        [Debug "tool-form::submit" "Submission failed.";
         ModalShow (JStr "Job submission failed")
           (ErrorTemplate
              ("The server could not complete the request. Please contact the Galaxy Team if this error persists. "
               +:+ to_str object_text
                     (js_or (js_and e (get e "err_msg")) (JStr "")))
              i)
           false ["Close"]]).
Proof.
  unfold submit_error, _templateError. split.
  - intros r message rest -> ->. split; [reflexivity|].
    destruct t; repeat constructor.
  - intros [-> | H]; [reflexivity|].
    destruct (truthy (js_and e (get e "err_data"))); [rewrite H|]; reflexivity.
Qed.

(** C7, as amended.  With a truthy [job_id] the tool is fetched from
    [api/jobs/{job_id}/build_for_rerun], and the query data hold
    [tool_version] only, when the model has a version.  Otherwise it is
    fetched from [api/tools/{id}/build], and the query data are a copy of
    the page parameters (those whose value is [undefined] are not
    copied) from which [tool_id] is removed when its value is truthy; a
    truthy version of the model is then stored as [tool_version]. *)
Theorem build_request_endpoints (params : gmap string jv) (i : attributes) :
  let a := fst (build_request object_text root params i) in
  let l := snd (build_request object_text root params i) in
  (truthy (job_id i) = true ->
     a = root +:+ "api/jobs/" +:+ to_str object_text (job_id i)
         +:+ "/build_for_rerun"
     /\ l = if truthy (version i)
            then {["tool_version" := version i]} else ∅)
  /\ (truthy (job_id i) = false ->
      a = root +:+ "api/tools/" +:+ to_str object_text (id i) +:+ "/build"
      /\ (forall k, k <> "tool_id" -> k <> "tool_version" ->
                    l !! k = extend params !! k)
      /\ (forall v, l !! "tool_id" = Some v <->
                    params !! "tool_id" = Some v
                    /\ truthy v = false /\ v <> JUndef)
      /\ l !! "tool_version" =
         if truthy (version i) then Some (version i)
         else extend params !! "tool_version")
  /\ (forall k v, extend params !! k = Some v <->
                  params !! k = Some v /\ v <> JUndef).
Proof.
  assert (Hext : forall k v, extend params !! k = Some v <->
                             params !! k = Some v /\ v <> JUndef).
  { intros k v. unfold extend. rewrite map_lookup_filter_Some; simpl.
    destruct v; simpl; intuition congruence. }
  cbv zeta. unfold build_request.
  destruct (truthy (job_id i)) eqn:Hjob; simpl.
  - split; [intros _|split; [discriminate|exact Hext]].
    split; [reflexivity|]. destruct (truthy (version i)); reflexivity.
  - split; [discriminate|split; [intros _|exact Hext]].
    set (l0 := if truthy (default JUndef (extend params !! "tool_id"))
               then delete "tool_id" (extend params) else extend params).
    split; [reflexivity|]. split; [|split].
    + intros k Hk1 Hk2.
      transitivity (l0 !! k).
      * destruct (truthy (version i)); [|reflexivity].
        apply lookup_insert_ne; congruence.
      * unfold l0.
        destruct (truthy (default JUndef (extend params !! "tool_id")));
          [|reflexivity].
        apply lookup_delete_ne; congruence.
    + intros v.
      assert (E : (if truthy (version i)
                   then <["tool_version" := version i]> l0 else l0)
                  !! "tool_id" = l0 !! "tool_id").
      { destruct (truthy (version i)); [|reflexivity].
        apply lookup_insert_ne; discriminate. }
      rewrite E. unfold l0.
      destruct (extend params !! "tool_id") as [v0|] eqn:Hv0; simpl.
      * apply Hext in Hv0 as [Hp Hu].
        destruct (truthy v0) eqn:Ht.
        -- rewrite lookup_delete_eq. split; [discriminate|].
           intros (Hp' & Hf & _). congruence.
        -- assert (Hv0' : extend params !! "tool_id" = Some v0)
             by (apply Hext; auto).
           rewrite Hv0'. split.
           ++ intros [= <-]. auto.
           ++ intros (Hp' & _). congruence.
      * rewrite Hv0. split; [discriminate|].
        intros (Hp & _ & Hu).
        assert (extend params !! "tool_id" = Some v) by (apply Hext; auto).
        congruence.
    + destruct (truthy (version i)).
      * apply lookup_insert_eq.
      * unfold l0.
        destruct (truthy (default JUndef (extend params !! "tool_id")));
          [|reflexivity].
        apply lookup_delete_ne; discriminate.
Qed.

End SubmitFacts.

(** A request with two empty required fields is canceled. *)
Lemma submit_canceled_witness :
  submit "/" (three_fields both_missing) cat1 true =
  [Trigger "reset"; Highlight "a" None;
   Debug "tool-form::submit()" "Submission canceled. Validation failed.";
   Callback].
Proof.
  exact (proj1 (submit_canceled "/" (three_fields both_missing) cat1 true
                  eq_refl)).
Defined.

(** A response that names the field [b] marks that field. *)
Lemma submit_error_surfaces_witness :
  submit_error Examples.object_text (three_fields []) (request_of []) true
    field_error =
  [Callback; Debug "tool-form::submit" "Submission failed.";
   Highlight "b" (Some "invalid")].
Proof.
  exact (proj1 (proj1
    (submit_error_surfaces Examples.object_text (three_fields [])
       (request_of []) true field_error)
    "b" "invalid" [] eq_refl eq_refl)).
Defined.

(** A model with a job id is fetched from the rerun endpoint. *)
Lemma build_request_endpoints_witness :
  fst (build_request Examples.object_text "/" empty_tool_id cat1_rerun)
  = "/api/jobs/bbd44e69cb8906b5/build_for_rerun".
Proof.
  exact (proj1 (proj1
    (build_request_endpoints Examples.object_text "/" empty_tool_id
       cat1_rerun) eq_refl)).
Defined.

(** C7 as stated fails for a page opened with an empty [tool_id]: the
    model has no job id, and the query data still hold [tool_id], so
    they are not the page parameters without it. *)
Lemma empty_tool_id_is_sent :
  let data := snd (build_request Examples.object_text "/" empty_tool_id cat1) in
  truthy (job_id cat1) = false
  /\ empty_tool_id !! "tool_id" = Some (JStr "")
  /\ data !! "tool_id" = Some (JStr "")
  /\ data <> <["tool_version" := JStr "1.0.0"]> (delete "tool_id" empty_tool_id).
Proof.
  cbv zeta. split; [reflexivity|]. split; [reflexivity|].
  assert (E : snd (build_request Examples.object_text "/" empty_tool_id cat1)
              !! "tool_id" = Some (JStr "")) by (vm_compute; reflexivity).
  split; [exact E|].
  intros H.
  apply (f_equal (fun m : gmap string jv => m !! "tool_id")) in H.
  vm_compute in H. discriminate.
Qed.

End ToolFormSpec.

(** ** The error dialog *)

Module ErrorModalSpec.
Import ErrorModal.

Section Facts.
Context (object_text : jv -> string) (localize : jv -> jv).

(** C4.  For a truthy message: with a modal host, [errorModal] shows the
    dialog with the localized title and message, adds the details with
    their dump and the Details button when details are given, raises no
    alert, and returns the dialog; without a modal host it raises the
    alert made of the title, an empty line and the message, shows no
    dialog, and logs the details. *)
Theorem errorModal_shown (w : window) (message title details : jv) :
  truthy message = true ->
  let message' := localize message in
  let title' := js_or (localize title) (localize (JStr "Error:")) in
  let r := errorModal object_text localize w message title details in
  (modal_host w = true ->
     r = (TheModal,
          [ModalShow title' (Text message') true ["Ok"];
           ModalAddClass "error-modal"]
          ++ (if truthy details then
                [DetailsClear;
                 DetailsAppend (DETAILS_MSG localize) details;
                 DetailsButton (localize (JStr "Details"))]
              else []))
     /\ Forall (fun x => is_alert x = false) (snd r))
  /\ (modal_host w = false ->
      r = (Undefined,
           [Alert (to_str object_text title' +:+ two_newlines
                   +:+ to_str object_text message');
            ConsoleLog "error details:" details])
      /\ Forall (fun x => is_modal x = false) (snd r)).
Proof.
  intros Hm. cbv zeta. unfold errorModal. rewrite Hm. split; intros ->.
  - split; [reflexivity|]. unfold _errorModal; simpl.
    destruct (truthy details); repeat constructor.
  - split; [reflexivity|]. repeat constructor.
Qed.

(** C9.  For a falsy message [errorModal] does nothing and returns
    [undefined], with or without a modal host. *)
Theorem errorModal_silent (w : window) (message title details : jv) :
  truthy message = false ->
  errorModal object_text localize w message title details = (Undefined, []).
Proof. intros Hm. unfold errorModal. rewrite Hm. reflexivity. Qed.

Lemma elem_of_functions (e : jv) (k : string) :
  k ∈ functions e <->
  exists v, (k, v) ∈ props_of e /\ is_function v = true.
Proof.
  unfold functions. rewrite merge_sort_Permutation, list_elem_of_fmap.
  split.
  - intros ([k' v] & -> & H). apply list_elem_of_filter in H as [H1 H2].
    exists v. auto.
  - intros (v & H1 & H2). exists (k, v). split; [reflexivity|].
    apply list_elem_of_filter. auto.
Qed.

Lemma elem_of_omit (obj : jv) (keys : list string) (k : string) (v : jv) :
  (k, v) ∈ props_of (omit obj keys) <-> (k, v) ∈ props_of obj /\ k ∉ keys.
Proof. unfold omit; simpl. rewrite list_elem_of_filter; simpl. tauto. Qed.

Lemma assoc_elem_of (k : string) (ps : list (string * jv)) (v : jv) :
  assoc k ps = Some v -> (k, v) ∈ ps.
Proof.
  induction ps as [|[k0 v0] ps IH]; simpl; [discriminate|].
  destruct (String.eqb_spec k k0) as [<-|Hne].
  - intros [= ->]. apply elem_of_cons. auto.
  - intros Hv. apply elem_of_cons. auto.
Qed.

Lemma NoDup_keys (ps : list (string * jv)) (k : string) (v v' : jv) :
  NoDup (map fst ps) -> (k, v) ∈ ps -> (k, v') ∈ ps -> v = v'.
Proof.
  induction ps as [|[k0 v0] ps IH]; simpl; intros Hnd H1 H2.
  - apply elem_of_nil in H1 as [].
  - apply NoDup_cons in Hnd as [Hk0 Hnd].
    apply elem_of_cons in H1 as [H1|H1]; apply elem_of_cons in H2 as [H2|H2].
    + congruence.
    + injection H1 as -> ->. exfalso. apply Hk0.
      apply list_elem_of_fmap. exists (k0, v'). auto.
    + injection H2 as -> ->. exfalso. apply Hk0.
      apply list_elem_of_fmap. exists (k0, v). auto.
    + auto.
Qed.

(** C10.  In the details assembled for a failed request, the user record
    is the serialized user without its [email] property, and the xhr
    entry is the xhr object without its function-valued properties: it
    has no function left, everything it has comes from the xhr, and it
    keeps every other property of the xhr.  These details are what
    [ajaxErrorModal] hands to [errorModal]. *)
Theorem ajax_details_redacted (g : galaxy) (w : window) (a e t : jv) :
  let details := _ajaxDetails object_text g w a e t in
  (get details "user" = omit (result (user g) "toJSON" JUndef) ["email"]
   /\ (forall v, ("email", v) ∉ props_of (get details "user"))
   /\ get (get details "user") "email" = JUndef)
  /\ (get details "xhr" = omit e (functions e)
      /\ (forall k v, (k, v) ∈ props_of (get details "xhr") ->
                      is_function v = false /\ (k, v) ∈ props_of e)
      /\ (NoDup (map fst (props_of e)) ->
          forall k v, (k, v) ∈ props_of e -> is_function v = false ->
                      (k, v) ∈ props_of (get details "xhr")))
  /\ (forall d u,
        Galaxy w = Some g ->
        exists d' u',
          ajaxErrorModal object_text localize w a e t d u =
          Some (errorModal object_text localize w d' u' details)
          /\ truthy d' = true).
Proof.
  cbv zeta.
  change (get (_ajaxDetails object_text g w a e t) "user")
    with (omit (result (user g) "toJSON" JUndef) ["email"]).
  change (get (_ajaxDetails object_text g w a e t) "xhr")
    with (omit e (functions e)).
  split; [|split].
  - split; [reflexivity|].
    assert (H : forall v, ("email", v)
                  ∉ props_of (omit (result (user g) "toJSON" JUndef) ["email"])).
    { intros v H. apply elem_of_omit in H as [_ H]. apply H.
      apply list_elem_of_singleton. reflexivity. }
    split; [exact H|].
    unfold get.
    destruct (assoc "email" _) as [v|] eqn:Hv; [|reflexivity].
    apply assoc_elem_of in Hv. destruct (H v Hv).
  - split; [reflexivity|]. split.
    + intros k v H. apply elem_of_omit in H as [Hin Hk]. split; [|exact Hin].
      destruct (is_function v) eqn:Hf; [|reflexivity].
      exfalso. apply Hk. apply elem_of_functions. eauto.
    + intros Hnd k v Hin Hf. apply elem_of_omit. split; [exact Hin|].
      intros Hk. apply elem_of_functions in Hk as (v' & Hin' & Hf').
      rewrite (NoDup_keys _ _ _ _ Hnd Hin Hin') in Hf. congruence.
  - intros d u Hg. unfold ajaxErrorModal. rewrite Hg.
    eexists _, _. split; [reflexivity|]. unfold concat. simpl.
    destruct (to_str object_text (js_or d (DEFAULT_AJAX_ERR_MSG localize)));
      reflexivity.
Qed.

End Facts.

Import Examples.

(** On a page with a modal host the dialog is shown, without details
    when none are given. *)
Lemma errorModal_shown_witness :
  errorModal Examples.object_text Examples.localize with_modal
    (JStr "Not found") (JStr "Oops") JUndef =
  (TheModal,
   [ModalShow (JStr "Oops") (Text (JStr "Not found")) true ["Ok"];
    ModalAddClass "error-modal"]).
Proof.
  exact (proj1 (proj1
    (errorModal_shown Examples.object_text Examples.localize with_modal
       (JStr "Not found") (JStr "Oops") JUndef eq_refl) eq_refl)).
Defined.

(** An empty message shows nothing. *)
Lemma errorModal_silent_witness :
  errorModal Examples.object_text Examples.localize with_modal
    (JStr "") (JStr "Oops") JUndef = (Undefined, []).
Proof.
  exact (errorModal_silent Examples.object_text Examples.localize with_modal
           (JStr "") (JStr "Oops") JUndef eq_refl).
Defined.

(** Of the sample xhr the two data properties are kept. *)
Lemma ajax_details_redacted_witness :
  ("status", JNum 500)
  ∈ props_of (get (_ajaxDetails Examples.object_text
                     {| modal := true; config := JUndef; lastAjax := JUndef;
                        user := JUndef |}
                     with_modal JUndef xhr JUndef) "xhr").
Proof.
  refine (proj2 (proj2 (proj1 (proj2
    (ajax_details_redacted Examples.object_text Examples.localize
       {| modal := true; config := JUndef; lastAjax := JUndef;
          user := JUndef |}
       with_modal JUndef xhr JUndef))))
    _ "status" (JNum 500) _ eq_refl).
  - compute_done.
  - do 2 apply list_elem_of_further. apply list_elem_of_here.
Defined.

End ErrorModalSpec.

(** ** Error callbacks never send a request *)

Module ViewsSpec.
Import ToolForm ErrorModal Views.

Section Facts.
Context (object_text : jv -> string) (root : string) (field : Type).
Context (jq_param : list (string * string) -> string) (localize : jv -> jv).

Lemma errorModal_no_request (w : window) (message title details : jv) :
  Forall (fun ev => is_request ev = false)
    (snd (errorModal object_text localize w message title details)).
Proof.
  unfold errorModal, _errorModal.
  destruct (truthy message), (modal_host w), (truthy details);
    repeat constructor.
Qed.

(** C6.  Whatever request of the four views fails, the error callback
    registered for it, if there is one, sends no request: it redirects,
    shows a message or a dialog, marks a field, writes a debug line,
    rejects the pending deferred or calls the completion callback.  The
    requests of the two toolshed views have no error callback at all,
    and [ajaxErrorModal] sends no request either. *)
Theorem error_callbacks_send_nothing :
  (forall site h (x : failure field),
     error_callback object_text root jq_param site = Some h ->
     Forall (fun ev => is_request ev = false) (h x))
  /\ (forall c, Toolshed.error_callback c = None)
  /\ (forall w a e t d u res,
        ajaxErrorModal object_text localize w a e t d u = Some res ->
        Forall (fun ev => is_request ev = false) (snd res)).
Proof.
  split; [|split].
  - intros [| | |c] h x; simpl.
    + intros [= <-]. unfold buildmodel_error.
      destruct (Z.eqb 401 (status x)), (view_empty x), (modal_there x);
        repeat constructor.
    + intros [= <-]. repeat constructor.
    + intros [= <-]. unfold submit_error.
      destruct (completion x); simpl;
        destruct (if truthy (js_and (response x) (get (response x) "err_data"))
                  then data_matchResponse (the_form x)
                         (get (response x) "err_data")
                  else []) as [|[r m] rest];
        repeat constructor.
    + destruct c; discriminate.
  - intros []; reflexivity.
  - intros w a e t d u res. unfold ajaxErrorModal.
    destruct (Galaxy w); [|discriminate].
    intros [= <-]. apply errorModal_no_request.
Qed.

End Facts.

Import Examples.

(** The error callback of the job request, on a response that names a
    field. *)
Lemma error_callbacks_send_nothing_witness :
  Forall (fun ev => is_request ev = false)
    (submit_error Examples.object_text (three_fields []) (request_of [])
       true field_error).
Proof.
  exact (proj1
    (error_callbacks_send_nothing Examples.object_text "/" unit
       Examples.jq_param Examples.localize)
    Submit _
    {| Views.response := field_error; status := 400; view_empty := false;
       modal_there := true; the_form := three_fields [];
       tool := cat1; sent := request_of []; completion := true |}
    eq_refl).
Defined.

End ViewsSpec.

(** ** More on the tool form *)

Module ToolFormMore.
Import ToolForm ToolFormSpec ToolFormReplies.

Section Validation.
Context {field : Type} (f : form field).

Implicit Types (t : list (string * value)) (o : Z) (tr : list effect)
  (l : value) (values : list (option selection)).

(** A turn of the loop goes on when the entry is not a missing required
    field and, if it is a batch-mode field, agrees with [o] and [i]. *)
Lemma check_input_goes_on o (i : option string) a l :
  (forall r n s, resolve f a = Some (r, n, s) ->
                 optional n = false -> l <> VNull) ->
  (forall values, batch_values f (a, l) = Some values ->
     (o = -1 \/ o = Z.of_nat (length values))
     /\ forall u j, source_kind values = Some u -> i = Some j -> j = u) ->
  exists o' i' tr, check_input f o i a l = (Next o' i', tr).
Proof.
  intros Hreq Hbatch. unfold check_input, batch_values in *. simpl in Hbatch.
  destruct (resolve f a) as [[[r n] s]|]; [|eauto].
  assert (E : negb (optional n) && value_nullish l = false).
  { destruct (optional n) eqn:Hopt; [reflexivity|].
    destruct l; try reflexivity. destruct (Hreq r n s eq_refl Hopt eq_refl). }
  rewrite E. destruct l as [|txt|[|] values]; eauto.
  destruct (Hbatch values eq_refl) as [Ho Hi].
  unfold check_batch.
  destruct (source_kind values) as [u|], i as [j|];
    try rewrite (Hi u j eq_refl eq_refl), String.eqb_refl;
    (destruct Ho as [-> | ->];
     [|destruct (Z.eqb (-1) (Z.of_nat (length values)));
       [|rewrite Z.eqb_refl]]); eauto.
Qed.

(** The effects of a turn that goes on: a debug line when the entry does
    not resolve, nothing otherwise. *)
Lemma check_input_next_trace o (i : option string) a l o' i' tr :
  check_input f o i a l = (Next o' i', tr) ->
  tr = match resolve f a with
       | Some _ => []
       | None => [Debug "tool-form::validate()"
                    "Retrieving input objects failed."]
       end.
Proof.
  unfold check_input.
  destruct (resolve f a) as [[[r n] s]|]; [|intros [= _ _ <-]; reflexivity].
  destruct (negb (optional n) && value_nullish l); [discriminate|].
  destruct l as [|txt|[|] values]; try (intros [= _ _ <-]; reflexivity).
  intros H. apply check_batch_next in H as [-> _]. reflexivity.
Qed.

Lemma validate_loop_accepts t : forall o (i : option string),
  accepted f t ->
  (forall v, v ∈ batch_fields f t -> o = -1 \/ o = Z.of_nat (length v)) ->
  (forall v u j, v ∈ batch_fields f t -> source_kind v = Some u ->
                 i = Some j -> j = u) ->
  fst (validate_loop f t o i) = true.
Proof.
  induction t as [|[a l] t IH]; intros o i (Hreq & Hcnt & Hknd) Ho Hi;
    [reflexivity|].
  simpl.
  rewrite batch_fields_cons in Hcnt, Hknd, Ho, Hi.
  destruct (check_input_goes_on o i a l) as (o' & i' & tr & Hstep).
  { intros r n s. apply Hreq. left. }
  { intros values Hv. rewrite Hv in Ho, Hi. split.
    - apply Ho. left.
    - intros u j. apply Hi. left. }
  rewrite Hstep.
  apply check_input_next in Hstep as (_ & _ & Hb).
  specialize (IH o' i').
  destruct (validate_loop f t o' i') as [b tr2]; simpl in *.
  apply IH.
  - split; [|split].
    + intros a0 l0 r n s Hin. apply (Hreq a0 l0 r n s). right. exact Hin.
    + intros v1 v2 H1 H2. apply Hcnt; destruct (batch_values f (a, l));
        try right; assumption.
    + intros v1 v2 u1 u2 H1 H2. apply Hknd; destruct (batch_values f (a, l));
        try right; assumption.
  - intros v Hv.
    destruct Hb as [(Hn & -> & _)|(values & Hs & -> & _)].
    + rewrite Hn in Ho. auto.
    + rewrite Hs in Hcnt. right. f_equal. apply Hcnt; [left|right; exact Hv].
  - intros v u j Hv Hu Hj.
    destruct Hb as [(Hn & _ & ->)|(values & Hs & _ & _ & -> & _)].
    + rewrite Hn in Hi. eauto.
    + rewrite Hs in Hi, Hknd.
      destruct (source_kind values) as [u0|] eqn:Hu0.
      * injection Hj as <-.
        apply (Hknd values v u0 u); [left|right; exact Hv|exact Hu0|exact Hu].
      * apply (Hi v u j); [right; exact Hv|exact Hu|exact Hj].
Qed.



Lemma validate_loop_rejects t : forall o (i : option string) tr,
  validate_loop f t o i = (false, tr) ->
  exists tr0 r m a l n s,
    tr = tr0 ++ [Highlight r m]
    /\ Forall (fun x => is_highlight x = false) tr0
    /\ (a, l) ∈ t
    /\ resolve f a = Some (r, n, s).
Proof.
  induction t as [|[a l] t IH]; intros o i tr H; [discriminate|].
  simpl in H.
  destruct (check_input f o i a l) as [[o' i'|b] tr1] eqn:Hstep.
  - destruct (validate_loop f t o' i') as [b tr2] eqn:Hrest.
    injection H as -> <-.
    destruct (IH _ _ _ Hrest)
      as (tr0 & r & m & a0 & l0 & n & s & -> & Hall & Hin & Hr).
    apply check_input_next in Hstep as (_ & Htr & _).
    exists (tr1 ++ tr0), r, m, a0, l0, n, s. rewrite app_assoc.
    split; [reflexivity|]. split; [apply Forall_app; auto|].
    split; [right; exact Hin|exact Hr].
  - injection H as -> <-.
    apply check_input_return in Hstep
      as (_ & r & n & s & Hr & [(_ & _ & ->)|(values & _ & Hb)]).
    + exists [], r, None, a, l, n, s.
      split; [reflexivity|]. split; [constructor|]. split; [left|exact Hr].
    + apply check_batch_return in Hb as (_ & [(-> & _)|(-> & _)]);
        eexists [], r, _, a, l, n, s;
        (split; [reflexivity|]; split; [constructor|]; split; [left|exact Hr]).
Qed.

(** X2.  When [validate] rejects a request, it marks exactly one field,
    by its last effect, and that field is one that an entry of the
    request resolves to. *)
Theorem validate_rejects_one_mark (e : request) :
  fst (validate f e) = false ->
  exists tr0 r m a l n s,
    snd (validate f e) = tr0 ++ [Highlight r m]
    /\ Forall (fun x => is_highlight x = false) tr0
    /\ (a, l) ∈ inputs e
    /\ resolve f a = Some (r, n, s).
Proof.
  unfold validate.
  destruct (validate_loop f (inputs e) (-1) None) as [b tr] eqn:H; simpl.
  intros ->. exact (validate_loop_rejects _ _ _ _ H).
Qed.

Lemma validate_loop_accepts_trace t : forall o (i : option string) tr,
  validate_loop f t o i = (true, tr) ->
  tr = map (fun _ => Debug "tool-form::validate()"
                       "Retrieving input objects failed.")
         (unresolved f t).
Proof.
  induction t as [|[a l] t IH]; intros o i tr H; simpl in H.
  - injection H as <-. reflexivity.
  - destruct (check_input f o i a l) as [[o' i'|b] tr1] eqn:Hstep.
    + destruct (validate_loop f t o' i') as [b tr2] eqn:Hrest.
      injection H as -> <-.
      rewrite (IH _ _ _ Hrest).
      apply check_input_next_trace in Hstep. subst tr1.
      unfold unresolved. rewrite filter_cons; simpl.
      destruct (resolve f a) as [p|].
      * rewrite decide_False by discriminate. reflexivity.
      * rewrite decide_True by reflexivity. reflexivity.
    + injection H as -> <-.
      apply check_input_return in Hstep as [? _]; discriminate.
Qed.

(** X3.  When [validate] accepts a request, it has marked no field: all
    it did is write one debug line for each entry the form does not
    resolve, in the order of the entries. *)
Theorem validate_accepts_trace (e : request) :
  fst (validate f e) = true ->
  snd (validate f e)
  = map (fun _ => Debug "tool-form::validate()"
                    "Retrieving input objects failed.")
      (unresolved f (inputs e)).
Proof.
  unfold validate.
  destruct (validate_loop f (inputs e) (-1) None) as [b tr] eqn:H; simpl.
  intros ->. exact (validate_loop_accepts_trace _ _ _ _ H).
Qed.

End Validation.

Section Submission.
Context (object_text : jv -> string) (root : string).
Context {field : Type} (f : form field).
Context (jq_param : list (string * string) -> string).

Lemma check_input_marks o (i : option string) a l res tr :
  check_input f o i a l = (res, tr) ->
  Forall (fun x => is_mark x = true) tr.
Proof.
  destruct res as [o' i'|b]; intros H.
  - apply check_input_next_trace in H. subst tr.
    destruct (resolve f a); repeat constructor.
  - apply check_input_return in H
      as (_ & r & n & s & _ & [(_ & _ & ->)|(values & _ & H)]).
    + repeat constructor.
    + apply check_batch_return in H as (_ & [(-> & _)|(-> & _)]);
        repeat constructor.
Qed.

(** [validate] only marks fields and writes debug lines. *)
Lemma validate_marks (e : request) :
  Forall (fun x => is_mark x = true) (snd (validate f e)).
Proof.
  unfold validate. generalize (-1) (@None string).
  induction (inputs e) as [|[a l] t IH]; intros o i; simpl; [constructor|].
  destruct (check_input f o i a l) as [[o' i'|b] tr1] eqn:Hstep;
    apply check_input_marks in Hstep; [|exact Hstep].
  specialize (IH o' i').
  destruct (validate_loop f t o' i') as [b tr2]; simpl in *.
  apply Forall_app; auto.
Qed.

Lemma filter_marks (P : effect -> bool) (tr : list effect) :
  (forall x, is_mark x = true -> P x = false) ->
  Forall (fun x => is_mark x = true) tr ->
  List.filter P tr = [].
Proof.
  intros HP. induction 1 as [|x tr Hx _ IH]; [reflexivity|].
  simpl. rewrite (HP x Hx). exact IH.
Qed.

(** X4.  [submit] sends one request when [validate] accepts and none
    when it rejects.  The one it sends is the submission of a form built
    from the entries when the action of the tool is not
    [tool_runner/index] under [Galaxy.root], and the POST of the job
    request to [api/tools] when it is. *)
Theorem submit_requests (e : attributes) (t : bool) :
  List.filter is_request (submit root f e t)
  = if fst (validate f (job_request f e)) then
      [if differs_from (action e) (root +:+ "tool_runner/index")
       then SubmitForm (action e) (method e) (enctype e) (data_create f)
       else Ajax "POST" (root +:+ "api/tools") (Job (job_request f e))]
    else [].
Proof.
  unfold submit.
  pose proof (validate_marks (job_request f e)) as Hm.
  destruct (validate f (job_request f e)) as [b tr]; simpl in *.
  assert (E : List.filter is_request tr = []).
  { apply filter_marks; [|exact Hm]. intros []; simpl; congruence. }
  simpl. rewrite List.filter_app, E; simpl.
  destruct b; simpl.
  - destruct (differs_from (action e) (root +:+ "tool_runner/index"));
      [destruct t|]; reflexivity.
  - destruct t; reflexivity.
Qed.

Lemma run_callback_marks (body : list step) (tr : list effect) :
  Forall (fun x => is_mark x = true) tr ->
  run_callback body (map Effect tr) = map Effect tr.
Proof.
  induction 1 as [|x tr Hx _ IH]; [reflexivity|].
  unfold run_callback in *; simpl. rewrite IH.
  destruct x; try discriminate; reflexivity.
Qed.

Lemma run_callback_app (body tr1 tr2 : list step) :
  run_callback body (tr1 ++ tr2)
  = run_callback body tr1 ++ run_callback body tr2.
Proof. unfold run_callback. apply flat_map_app. Qed.

Lemma filter_map_marks (P : step -> bool) (tr : list effect) :
  (forall x, is_mark x = true -> P (Effect x) = false) ->
  Forall (fun x => is_mark x = true) tr ->
  List.filter P (map Effect tr) = [].
Proof.
  intros HP. induction 1 as [|x tr Hx _ IH]; [reflexivity|].
  simpl. rewrite (HP x Hx). exact IH.
Qed.

Lemma existsb_map_marks (P : step -> bool) (tr : list effect) :
  (forall x, is_mark x = true -> P (Effect x) = false) ->
  Forall (fun x => is_mark x = true) tr ->
  existsb P (map Effect tr) = false.
Proof.
  intros HP. induction 1 as [|x tr Hx _ IH]; [reflexivity|].
  simpl. rewrite (HP x Hx), IH. reflexivity.
Qed.



(** X7.  A reply to the request of [buildmodel] settles the deferred at
    most once.  A success with [display] resolves it; a failure rejects
    it, by its last step, also when it redirects to the login page; a
    success without [display] only redirects to [Galaxy.root] and leaves
    the deferred pending. *)
Theorem buildmodel_reply_settles (empty modal : bool) (i : attributes)
    (r : reply (list (string * jv))) :
  let tr := buildmodel_reply object_text root jq_param empty modal i r in
  (length (List.filter is_settle tr) <= 1)%nat
  /\ (List.filter is_settle tr = [] <->
      exists e, r = Succeeded e /\ truthy (get (JObj e) "display") = false)
  /\ (forall e, r = Succeeded e -> truthy (get (JObj e) "display") = false ->
                tr = [Effect (Redirect root)])
  /\ (forall e, r = Succeeded e -> truthy (get (JObj e) "display") = true ->
                List.filter is_settle tr = [Effect Resolve])
  /\ (forall e a, r = Failed e a ->
                  exists shown, tr = shown ++ [Effect Reject]
                                /\ List.filter is_settle shown = []).
Proof.
  cbv zeta. destruct r as [e|e a]; simpl.
  - unfold buildmodel_success.
    destruct (truthy (get (JObj e) "display")) eqn:Hd; simpl.
    + split; [lia|]. split; [|split; [|split]].
      * split; [discriminate|]. intros (e' & [= <-] & H). congruence.
      * intros e' [= <-] H. congruence.
      * reflexivity.
      * discriminate.
    + split; [lia|]. split; [|split; [|split]].
      * split; [eauto|reflexivity].
      * reflexivity.
      * intros e' [= <-] H. congruence.
      * discriminate.
  - unfold buildmodel_error.
    set (shown := if Z.eqb 401 a then _ else _).
    assert (Hs : List.filter is_settle (map Effect shown) = []).
    { unfold shown. destruct (Z.eqb 401 a), empty, modal; reflexivity. }
    rewrite map_app, List.filter_app, Hs; simpl.
    split; [lia|]. split; [|split; [|split]].
    + split; [discriminate|]. intros (e' & [=] & _).
    + discriminate.
    + discriminate.
    + intros e' a' _.
      exists (map Effect shown ++
              [Effect (Debug "tool-form-base::_buildModel()"
                         "Initial tool model request failed.")]).
      rewrite <- app_assoc. split; [reflexivity|].
      rewrite List.filter_app, Hs. reflexivity.
Qed.

(** X8.  The message of a failed [buildmodel] is never empty: it is the
    [err_msg] of the response when there is a truthy one, and "Uncaught
    error." otherwise.  The failure is visible to the user (a redirect, a
    message in the view or a dialog) unless the status is not 401, the
    view is not empty and there is no [Galaxy.modal]; then it is only
    logged. *)
Theorem buildmodel_error_visible (empty modal : bool) (i : attributes)
    (t : jv) (a : Z) :
  let tr := buildmodel_error object_text root jq_param empty modal i t a in
  let l := js_or (js_and t (get t "err_msg")) (JStr "Uncaught error.") in
  truthy l = true
  /\ existsb is_shown tr = Z.eqb 401 a || empty || modal
  /\ (forall m, PrependMessage m ∈ tr -> m = l)
  /\ (forall title m c b, ModalShow title (Text m) c b ∈ tr -> m = l).
Proof.
  cbv zeta. unfold buildmodel_error. split.
  - unfold js_or, js_and.
    destruct (truthy t) eqn:Ht.
    + destruct (truthy (get t "err_msg")) eqn:Hm; [exact Hm|reflexivity].
    + rewrite Ht. reflexivity.
  - destruct (Z.eqb 401 a), empty, modal; simpl;
      (split; [reflexivity|]);
      split; intros; repeat
        match goal with
        | H : _ ∈ _ :: _ |- _ => apply elem_of_cons in H as [H|H]
        | H : _ ∈ [] |- _ => apply elem_of_nil in H as []
        end; congruence.
Qed.

(** X9.  [postchange] puts the form in its waiting state, and only the
    success callback ends it: after a failed reply the form is still
    waiting. *)
Theorem postchange_waiting (i : attributes) (w : bool) (r : reply jv) :
  waiting (map Effect (postchange object_text root f i)
           ++ postchange_reply r) w
  = match r with Succeeded _ => false | Failed _ _ => true end.
Proof. destruct r; reflexivity. Qed.

End Submission.

Import Examples MoreExamples.

(** Two required fields left empty: the first one is marked. *)
Lemma validate_rejects_one_mark_witness :
  exists tr0 r m a l n s,
    snd (validate (three_fields both_missing) (request_of both_missing))
    = tr0 ++ [Highlight r m]
    /\ Forall (fun x => is_highlight x = false) tr0
    /\ (a, l) ∈ inputs (request_of both_missing)
    /\ resolve (three_fields both_missing) a = Some (r, n, s).
Proof.
  exact (validate_rejects_one_mark (three_fields both_missing)
           (request_of both_missing) eq_refl).
Defined.

(** A request with one unknown entry passes with one debug line. *)
Lemma validate_accepts_trace_witness :
  snd (validate (three_fields one_unknown) (request_of one_unknown))
  = [Debug "tool-form::validate()" "Retrieving input objects failed."].
Proof.
  exact (validate_accepts_trace (three_fields one_unknown)
           (request_of one_unknown) eq_refl).
Defined.

End ToolFormMore.

(** ** More on the error dialog *)

Module ErrorModalMore.
Import ErrorModal ToolFormReplies.

Section Facts.
Context (object_text : jv -> string) (localize : jv -> jv).

(** X10.  [errorModal] returns [Galaxy.modal] exactly when it showed a
    dialog; it raises an alert exactly for a truthy message without a
    modal host, and never both; the Details section is there exactly for
    a truthy message, a modal host and truthy details; and it does
    nothing at all exactly for a falsy message. *)
Theorem errorModal_dialog_or_alert (w : window) (message title details : jv) :
  let r := errorModal object_text localize w message title details in
  (fst r = TheModal <-> existsb is_modal (snd r) = true)
  /\ (existsb is_alert (snd r) = true <->
      truthy message = true /\ modal_host w = false)
  /\ existsb is_modal (snd r) && existsb is_alert (snd r) = false
  /\ (existsb is_details (snd r) = true <->
      truthy message = true /\ modal_host w = true /\ truthy details = true)
  /\ (snd r = [] <-> truthy message = false).
Proof.
  cbv zeta. unfold errorModal, _errorModal.
  destruct (truthy message), (modal_host w), (truthy details); simpl;
    repeat split; try tauto; try discriminate;
    try (intros (? & ? & ?); discriminate);
    try (intros (? & ?); discriminate).
Qed.

Lemma concat_truthy (a b : jv) :
  truthy (concat object_text a (concat object_text (JStr " ") b)) = true.
Proof.
  unfold concat; simpl.
  destruct (to_str object_text a); reflexivity.
Qed.

(** X11.  [ajaxErrorModal] fails before showing anything exactly when
    there is no [Galaxy].  Otherwise it is never silent, whatever the
    message passed: with [Galaxy.modal] it shows the dialog and always
    adds the details of the request; without it, it raises the alert and
    logs those details. *)
Theorem ajaxErrorModal_reports (w : window) (a e t d u : jv) :
  (ajaxErrorModal object_text localize w a e t d u = None <->
   Galaxy w = None)
  /\ (forall g, Galaxy w = Some g ->
      exists res,
        ajaxErrorModal object_text localize w a e t d u = Some res
        /\ (modal g = true ->
            fst res = TheModal
            /\ existsb is_modal (snd res) = true
            /\ DetailsAppend (DETAILS_MSG localize)
                 (_ajaxDetails object_text g w a e t) ∈ snd res)
        /\ (modal g = false ->
            fst res = Undefined
            /\ existsb is_alert (snd res) = true
            /\ ConsoleLog "error details:"
                 (_ajaxDetails object_text g w a e t) ∈ snd res)).
Proof.
  unfold ajaxErrorModal. split.
  - destruct (Galaxy w); split; congruence.
  - intros g Hg. rewrite Hg. eexists. split; [reflexivity|].
    unfold errorModal. rewrite concat_truthy.
    unfold modal_host. rewrite Hg.
    split; intros ->; simpl; (split; [reflexivity|split; [reflexivity|]]);
      rewrite !elem_of_cons; auto 10.
Qed.

(** X12.  The offline and the bad gateway dialogs never have a Details
    section.  [badGatewayErrorModal] always shows a dialog or an alert;
    [offlineErrorModal] shows nothing exactly when the localization of
    its message is falsy. *)
Theorem fixed_dialogs_have_no_details (w : window) :
  existsb is_details (snd (offlineErrorModal object_text localize w)) = false
  /\ existsb is_details (snd (badGatewayErrorModal object_text localize w))
     = false
  /\ existsb (fun x => is_modal x || is_alert x)
       (snd (badGatewayErrorModal object_text localize w)) = true
  /\ (snd (offlineErrorModal object_text localize w) = [] <->
      truthy (localize (JStr "You appear to be offline. Please check your connection and try again."))
      = false).
Proof.
  unfold offlineErrorModal, badGatewayErrorModal, errorModal, _errorModal.
  assert (Hb : forall x y, truthy (concat object_text (concat object_text x (JStr " ")) y) = true).
  { intros x y. unfold concat; simpl.
    destruct (to_str object_text x); reflexivity. }
  rewrite Hb.
  destruct (truthy (localize (JStr "You appear to be offline. Please check your connection and try again."))),
    (modal_host w); simpl; repeat split; try tauto; try discriminate.
Qed.

End Facts.

End ErrorModalMore.

(** ** The toolshed routes *)

Module ToolshedSpec.
Import ToolshedRoutes.

Lemma occurs_append (c : ascii) (s1 s2 : string) :
  occurs c (s1 +:+ s2) = occurs c s1 || occurs c s2.
Proof.
  induction s1 as [|x s1 IH]; simpl; [reflexivity|].
  rewrite IH. apply orb_assoc.
Qed.

(** Replacing a character leaves no occurrence of it, when the
    replacement has none; and brings in no other character that the
    text and the replacement do not have. *)
Lemma occurs_replace_char (c d : ascii) (by_ s : string) :
  occurs d by_ = false ->
  (d = c \/ occurs d s = false) ->
  occurs d (replace_char c by_ s) = false.
Proof.
  intros Hby Hs. induction s as [|x s IH]; simpl; [reflexivity|].
  destruct (Ascii.eqb_spec x c) as [->|Hne].
  - rewrite occurs_append, Hby. simpl. apply IH.
    destruct Hs as [->|Hs]; [auto|]. simpl in Hs.
    apply orb_false_elim in Hs as [_ Hs]. auto.
  - simpl. destruct Hs as [->|Hs].
    + destruct (Ascii.eqb_spec x c); [congruence|]. simpl. apply IH. auto.
    + simpl in Hs. apply orb_false_elim in Hs as [Hx Hs].
      rewrite Hx. simpl. apply IH. auto.
Qed.

(** X13.  The tool shed put in a route has no slash and no colon, and the
    tool shed stored in [model.tool_shed] has no slash: each is a single
    segment of the route it is put in. *)
Theorem escaped_shed_is_one_segment (shed : string) :
  occurs "/" (escape_shed shed) = false
  /\ occurs ":" (escape_shed shed) = false
  /\ occurs "/" (initialize_tool_shed shed) = false.
Proof.
  unfold escape_shed, initialize_tool_shed. split; [|split].
  - apply occurs_replace_char; [reflexivity|auto].
  - apply occurs_replace_char; [reflexivity|]. right.
    apply occurs_replace_char; [reflexivity|auto].
  - apply occurs_replace_char; [reflexivity|auto].
Qed.

Lemma unescape_slashes_step (x : ascii) (s : string) :
  unescape_slashes (String x s)
  = match (if Ascii.eqb x "%" then after_2f s else None) with
    | Some rest => String "/" (unescape_slashes rest)
    | None => String x (unescape_slashes s)
    end.
Proof.
  destruct s as [|y [|z rest]]; simpl;
    destruct (Ascii.eqb x "%"); try reflexivity; simpl;
    destruct (Ascii.eqb y "2" && Ascii.eqb z "f"); reflexivity.
Qed.

Lemma after_2f_escaped (s : string) :
  after_2f (replace_char "/" "%2f" s)
  = option_map (replace_char "/" "%2f") (after_2f s).
Proof.
  destruct s as [|y [|z rest]]; simpl; try reflexivity.
  - destruct (Ascii.eqb_spec y "/") as [->|]; reflexivity.
  - destruct (Ascii.eqb_spec y "/") as [->|Hy]; [reflexivity|].
    destruct (Ascii.eqb_spec z "/") as [->|Hz]; simpl.
    + rewrite andb_false_r. reflexivity.
    + destruct (Ascii.eqb y "2" && Ascii.eqb z "f"); reflexivity.
Qed.

Lemma after_2f_shorter (s rest : string) :
  after_2f s = Some rest -> (String.length rest < String.length s)%nat.
Proof.
  destruct s as [|y [|z r]]; simpl; try discriminate.
  destruct (Ascii.eqb y "2" && Ascii.eqb z "f"); [|discriminate].
  intros [= ->]. lia.
Qed.

Lemma unescape_escaped_bounded (n : nat) : forall s,
  (String.length s <= n)%nat ->
  unescape_slashes (replace_char "/" "%2f" s) = unescape_slashes s.
Proof.
  induction n as [|n IH]; intros [|x s] Hn; simpl in Hn; try reflexivity;
    [lia|].
  cbn [replace_char].
  destruct (Ascii.eqb_spec x "/") as [->|Hx].
  - change ("%2f" +:+ replace_char "/" "%2f" s)
      with (String "%" (String "2" (String "f" (replace_char "/" "%2f" s)))).
    rewrite !unescape_slashes_step. simpl. rewrite IH by lia. reflexivity.
  - rewrite !unescape_slashes_step.
    destruct (Ascii.eqb x "%"); [|rewrite IH by lia; reflexivity].
    rewrite after_2f_escaped.
    destruct (after_2f s) as [rest|] eqn:Hs; simpl.
    + apply after_2f_shorter in Hs. rewrite IH by lia. reflexivity.
    + rewrite IH by lia. reflexivity.
Qed.

(** X14.  The search box sends the tool shed given to [initialize] with
    every [%2f] of it read as a slash: escaping the slashes and
    unescaping [%2f] gives the same as unescaping alone.  For a tool shed
    without [%2f] the url sent is the one given. *)
Theorem search_sends_unescaped_shed (root : string) (tool_shed : string)
    (term : jv) :
  unescape_slashes (initialize_tool_shed tool_shed)
  = unescape_slashes tool_shed
  /\ search_source root (initialize_tool_shed tool_shed) term
     = Toolshed.search root term (JStr (unescape_slashes tool_shed))
  /\ (unescape_slashes tool_shed = tool_shed ->
      search_source root (initialize_tool_shed tool_shed) term
      = Toolshed.search root term (JStr tool_shed)).
Proof.
  assert (E : unescape_slashes (initialize_tool_shed tool_shed)
              = unescape_slashes tool_shed)
    by (apply (unescape_escaped_bounded (String.length tool_shed)); lia).
  unfold search_source. rewrite E. split; [reflexivity|].
  split; [reflexivity|]. intros ->. reflexivity.
Qed.

(** The default tool shed comes back as it was given. *)
Lemma search_sends_unescaped_shed_witness :
  search_source "/" (initialize_tool_shed "https://toolshed.g2.bx.psu.edu/")
    (JStr "bwa")
  = Toolshed.search "/" (JStr "bwa") (JStr "https://toolshed.g2.bx.psu.edu/").
Proof.
  exact (proj2 (proj2
    (search_sends_unescaped_shed "/" "https://toolshed.g2.bx.psu.edu/"
       (JStr "bwa"))) eq_refl).
Defined.

End ToolshedSpec.
